(** * ramiServer: a shallow embedding of the auth and todos routers

    The development follows the layout of the repository:
    - [Regex]    the fragment of JavaScript regular expressions used by
                 the e-mail pattern of [routes/auth.js];
    - [UserInfo], [Todo]  the two mongoose schemas (models/);
    - [Jwt]      a symbolic model of jsonwebtoken's signed tokens;
    - the request monad [M] (server state, store-operation log, thrown
      errors) and the collection primitives the handlers call;
    - [verifyToken], [getTodo] and the route handlers of
      routes/auth.js and routes/todos.js;
    - the theorems about them. *)

From Stdlib Require Import ZArith Ascii String.
From stdpp Require Import gmap strings list fin_maps.

Local Open Scope string_scope.

(** ** Regular expressions (the fragment the e-mail pattern needs) *)

Module Regex.

Inductive re : Type :=
  | Void                              (* matches nothing *)
  | Eps                               (* the empty string *)
  | Set_ (p : ascii -> bool)          (* a character class [...] *)
  | Cat (r s : re)                    (* rs *)
  | Alt (r s : re)                    (* r|s *)
  | Star (r : re).                    (* r* *)

  (** [r+] and [r{2,}] as JavaScript defines them. *)
Definition Plus (r : re) : re := Cat r (Star r).
Definition AtLeast2 (r : re) : re := Cat r (Cat r (Star r)).

  (** Denotation: the words a pattern anchored with [^] and [$] accepts. *)
Inductive Matches : re -> list ascii -> Prop :=
  | MEps : Matches Eps []
  | MSet p c : p c = true -> Matches (Set_ p) [c]
  | MCat r s u v : Matches r u -> Matches s v -> Matches (Cat r s) (u ++ v)
  | MAltL r s u : Matches r u -> Matches (Alt r s) u
  | MAltR r s u : Matches s u -> Matches (Alt r s) u
  | MStar0 r : Matches (Star r) []
  | MStarS r c u v :
      Matches r (c :: u) -> Matches (Star r) v -> Matches (Star r) (c :: u ++ v).

Fixpoint nullable (r : re) : bool :=
    match r with
    | Void => false
    | Eps => true
    | Set_ _ => false
    | Cat r s => nullable r && nullable s
    | Alt r s => nullable r || nullable s
    | Star _ => true
    end.

Fixpoint deriv (c : ascii) (r : re) : re :=
    match r with
    | Void => Void
    | Eps => Void
    | Set_ p => if p c then Eps else Void
    | Cat r s =>
        if nullable r then Alt (Cat (deriv c r) s) (deriv c s)
        else Cat (deriv c r) s
    | Alt r s => Alt (deriv c r) (deriv c s)
    | Star r => Cat (deriv c r) (Star r)
    end.

Fixpoint accepts (r : re) (w : list ascii) : bool :=
    match w with
    | [] => nullable r
    | c :: w' => accepts (deriv c r) w'
    end.

  (** [RegExp.prototype.test] for a pattern of the form [/^r$/]. *)
Definition test (r : re) (s : string) : bool :=
    accepts r (list_ascii_of_string s).

  (** Character classes. *)
Definition range (lo hi c : ascii) : bool :=
    Nat.leb (nat_of_ascii lo) (nat_of_ascii c)
    && Nat.leb (nat_of_ascii c) (nat_of_ascii hi).

Definition one_of (cs : list ascii) (c : ascii) : bool :=
    existsb (Ascii.eqb c) cs.

Definition chr (a : ascii) : re := Set_ (Ascii.eqb a).

End Regex.

(** ** routes/auth.js, line 64: the e-mail pattern

    [/^[a-zA-Z0-9._%+-]+@[a-zA-Z0-9.-]+\.[a-zA-Z]{2,}$/] *)

Definition letter (c : ascii) : bool :=
  Regex.range "a" "z" c || Regex.range "A" "Z" c.

Definition local_char (c : ascii) : bool :=
  letter c || Regex.range "0" "9" c
  || Regex.one_of ["."; "_"; "%"; "+"; "-"]%char c.

Definition domain_char (c : ascii) : bool :=
  letter c || Regex.range "0" "9" c || Regex.one_of ["."; "-"]%char c.

Definition regex : Regex.re :=
  Regex.Cat (Regex.Plus (Regex.Set_ local_char))
    (Regex.Cat (Regex.chr "@")
       (Regex.Cat (Regex.Plus (Regex.Set_ domain_char))
          (Regex.Cat (Regex.chr ".")
             (Regex.AtLeast2 (Regex.Set_ letter))))).

(** A missing query parameter is [undefined]; [test] converts its
    argument to a string first, so it sees the text "undefined". *)
Definition js_to_string (v : option string) : string :=
  match v with
  | Some s => s
  | None => "undefined"
  end.

Definition regex_test (v : option string) : bool :=
  Regex.test regex (js_to_string v).


(** ** The data model *)

(** A store identifier (bson's ObjectId), kept apart from the raw
    strings that arrive in paths and request bodies. [hex] is its
    canonical 24-digit rendering. *)
Record ObjectId : Type := OID { hex : string }.

#[global] Instance ObjectId_eq_dec : EqDecision ObjectId.
Proof. solve_decision. Defined.

#[global] Instance ObjectId_countable : Countable ObjectId :=
  inj_countable' hex OID (fun i => match i with OID _ => eq_refl end).

(** models/user_info.js *)
Module UserInfo.
Record t : Type := mk {
    email : string;
    password : string;
    username : string;
    createdTime : string;
  }.
End UserInfo.

(** models/todo.js. No path of the schema is required, and
    [new Todo(req.body)] copies whichever of them the client sent, so
    every path is optional. *)
Module Todo.
Record t : Type := mk {
    content : option string;
    createdTime : option string;
    userId : option ObjectId;
  }.

Definition set_content (c : string) (d : t) : t :=
    mk (Some c) (createdTime d) (userId d).
Definition set_createdTime (c : string) (d : t) : t :=
    mk (content d) (Some c) (userId d).
Definition set_userId (u : ObjectId) (d : t) : t :=
    mk (content d) (createdTime d) (Some u).
End Todo.

#[global] Instance UserInfo_eq_dec : EqDecision UserInfo.t.
Proof. solve_decision. Defined.

#[global] Instance Todo_eq_dec : EqDecision Todo.t.
Proof. solve_decision. Defined.

(** ** jsonwebtoken, symbolically

    A token is its payload together with the secret that signed it; a
    verifier holding another secret rejects it. *)
Module Jwt.
Record t : Type := mk {
    iss : string;
    aud : string;
    sub : option ObjectId;
    iat : Z;
    exp : Z;
    key : string;
  }.

  (** [jwt.sign(payload, secret, { expiresIn })] at time [clock]
      (seconds): the payload is copied, [iat] and [exp] are added. *)
Definition sign (iss aud : string) (sub : option ObjectId)
      (secret : string) (expiresIn clock : Z) : t :=
    mk iss aud sub clock (clock + expiresIn)%Z secret.

  (** [jwt.verify(token, secret, { issuer, audience })] at time
      [clock]: the subject of the payload when everything checks out. *)
Definition verify (tok : t) (secret issuer audience : string) (clock : Z)
      : option (option ObjectId) :=
    if bool_decide (key tok = secret)
       && bool_decide (clock < exp tok)%Z
       && bool_decide (iss tok = issuer)
       && bool_decide (aud tok = audience)
    then Some (sub tok) else None.
End Jwt.

#[global] Instance Jwt_eq_dec : EqDecision Jwt.t.
Proof. solve_decision. Defined.

(** ** Requests and responses *)

(** JavaScript truthiness of a string-valued property that may be
    missing: [!v] holds for [undefined] and for the empty string. *)
Definition falsy (v : option string) : bool :=
  match v with
  | None => true
  | Some s => bool_decide (s = "")
  end.

(** The string behind a property already known to be truthy. *)
Definition str (v : option string) : string := default "" v.

(** The bodies of login and sign-up as the API documents them: every
    property a string, possibly missing. Other JSON values (numbers,
    objects, arrays) are outside this model. *)
Module LoginRequest.
Record t : Type := mk { email : option string; password : option string }.
End LoginRequest.

Module SignUpRequest.
Record t : Type := mk {
    email : option string;
    password : option string;
    username : option string;
  }.
End SignUpRequest.

(** The body of a create request: [content] is what the API documents,
    the other properties are what the schema would also pick up. *)
Module TodoRequest.
Record t : Type := mk {
    _id : option string;
    content : option string;
    createdTime : option string;
    userId : option string;
  }.
End TodoRequest.

(** What a handler hands to [res.json]. *)
Inductive Json : Type :=
| JError (error : string)                       (* { error } *)
| JMessage (message : string)                   (* { message } *)
| JAccessToken (accessToken : Jwt.t)            (* { accessToken } *)
| JTodo (doc : ObjectId * Todo.t)
| JTodos (docs : list (ObjectId * Todo.t))
| JUser (doc : ObjectId * UserInfo.t).

Record Response : Type := mkResponse {
  status : nat;
  json : Json;
  cookie : option (string * Jwt.t);             (* res.cookie(name, value) *)
}.

Definition reply (code : nat) (j : Json) : Response := mkResponse code j None.

#[global] Instance Json_eq_dec : EqDecision Json.
Proof. solve_decision. Defined.

#[global] Instance Response_eq_dec : EqDecision Response.
Proof. solve_decision. Defined.

(** ** Server state and the request monad *)

(** One entry per round trip to the document store. *)
Inductive StoreOp : Type :=
| UserInfo_findOne_op (email : string) (password : option string)
| UserInfo_save_op (id : ObjectId)
| UserInfo_findByIdAndDelete_op (id : ObjectId)
| Todo_findById_op (id : ObjectId)
| Todo_find_op (userId : ObjectId)
| Todo_save_op (id : ObjectId)
| Todo_updateMany_op (id : ObjectId) (content : string)
| Todo_deleteOne_op (id : ObjectId)
| Todo_deleteMany_op (userId : ObjectId).

Record Server : Type := mkServer {
  user_infos : gmap ObjectId UserInfo.t;        (* collection user_infos *)
  todos : gmap ObjectId Todo.t;                 (* collection todos *)
  options_sub : option ObjectId;                (* options.sub in routes/auth.js *)
  oplog : list StoreOp;                         (* store operations, oldest first *)
}.

Definition with_user_infos (f : gmap ObjectId UserInfo.t -> gmap ObjectId UserInfo.t)
    (s : Server) : Server :=
  mkServer (f (user_infos s)) (todos s) (options_sub s) (oplog s).
Definition with_todos (f : gmap ObjectId Todo.t -> gmap ObjectId Todo.t)
    (s : Server) : Server :=
  mkServer (user_infos s) (f (todos s)) (options_sub s) (oplog s).
Definition with_options_sub (v : ObjectId) (s : Server) : Server :=
  mkServer (user_infos s) (todos s) (Some v) (oplog s).
Definition logged (op : StoreOp) (s : Server) : Server :=
  mkServer (user_infos s) (todos s) (options_sub s) (oplog s ++ [op]).

(** An awaited call either returns or throws an [Error] with a message. *)
Inductive outcome (A : Type) : Type :=
| Returned (a : A)
| Thrown (message : string).
Arguments Returned {A} a.
Arguments Thrown {A} message.

Definition M (A : Type) : Type := Server -> outcome A * Server.

Definition ret {A} (a : A) : M A := fun s => (Returned a, s).
Definition throw {A} (message : string) : M A := fun s => (Thrown message, s).
Definition bind {A B} (m : M A) (k : A -> M B) : M B :=
  fun s =>
    match m s with
    | (Returned a, s') => k a s'
    | (Thrown e, s') => (Thrown e, s')
    end.
(** [try { m } catch (err) { h err }] *)
Definition try_catch {A} (m : M A) (h : string -> M A) : M A :=
  fun s =>
    match m s with
    | (Returned a, s') => (Returned a, s')
    | (Thrown e, s') => h e s'
    end.
Definition get : M Server := fun s => (Returned s, s).
Definition modify (f : Server -> Server) : M unit := fun s => (Returned tt, f s).

Notation "'let*' x ':=' m 'in' k" := (bind m (fun x => k))
  (at level 10, x name, m at level 100, k at level 200).
Notation "m ';;' k" := (bind m (fun _ => k))
  (at level 100, k at level 200, right associativity).

(** What is left of a handler's run: the response and the server
    afterwards. Every handler awaits inside [try]/[catch] and answers
    500 from the [catch], so no error escapes one ([try_catch_returns]);
    the second branch is only there to make the function total. *)
Definition respond (m : M Response) (s : Server) : Response * Server :=
  match m s with
  | (Returned r, s') => (r, s')
  | (Thrown e, s') => (reply 500 (JError e), s')
  end.

(** ** What the routers take from outside the repository

    - [sha512_base64 p] is [crypto.createHash('sha512').update(p).digest('base64')];
    - [castObjectId] is mongoose's cast of a string to an ObjectId,
      [None] where [mongoose.Types.ObjectId.isValid] answers false;
    - the four [JWT_...] settings come from [process.env]. *)
Record Platform : Type := mkPlatform {
  sha512_base64 : string -> string;
  castObjectId : string -> option ObjectId;
  JWT_ISSUER : string;
  JWT_AUDIENCE : string;
  JWT_TOKEN_SECRET : string;
  JWT_ACCESS_TOKEN_EXPIRES_IN : Z;
}.

(** The filter [{ userId }] on the todos collection. *)
Definition owned_by (userId : ObjectId) (d : ObjectId * Todo.t) : Prop :=
  Todo.userId d.2 = Some userId.

#[global] Instance owned_by_dec userId d : Decision (owned_by userId d).
Proof. unfold owned_by. apply _. Defined.

Section Routers.

Variable host : Platform.

Definition ObjectId_isValid (id : string) : bool :=
  match castObjectId host id with
  | Some _ => true
  | None => false
  end.

(** *** Collection primitives (mongoose models [UserInfo] and [Todo]) *)

(** [UserInfo.findOne({ email })] and
    [UserInfo.findOne({ email, password })]. *)
Definition UserInfo_matches (email : string) (password : option string)
    (d : ObjectId * UserInfo.t) : bool :=
  bool_decide (UserInfo.email d.2 = email)
  && match password with
     | Some h => bool_decide (UserInfo.password d.2 = h)
     | None => true
     end.

Definition UserInfo_findOne (email : string) (password : option string)
    : M (option (ObjectId * UserInfo.t)) :=
  modify (logged (UserInfo_findOne_op email password)) ;;
  let* s := get in
  ret (List.find (UserInfo_matches email password) (map_to_list (user_infos s))).

(** [doc.save()] of a new document: the unique index on [_id] rejects
    a second document with the same identifier. *)
Definition UserInfo_save (d : ObjectId * UserInfo.t)
    : M (ObjectId * UserInfo.t) :=
  modify (logged (UserInfo_save_op d.1)) ;;
  let* s := get in
  match user_infos s !! d.1 with
  | Some _ => throw "E11000 duplicate key error collection: user_infos index: _id_"
  | None => modify (with_user_infos (insert d.1 d.2)) ;; ret d
  end.

Definition UserInfo_findByIdAndDelete (id : ObjectId)
    : M (option UserInfo.t) :=
  modify (logged (UserInfo_findByIdAndDelete_op id)) ;;
  let* s := get in
  modify (with_user_infos (delete id)) ;;
  ret (user_infos s !! id).

(** [Todo.findById(id)] with [id] a string: the cast comes first and
    throws a CastError without a round trip. *)
Definition Todo_findById (id : string) : M (option (ObjectId * Todo.t)) :=
  match castObjectId host id with
  | None => throw "Cast to ObjectId failed for value at path _id for model todos"
  | Some oid =>
      modify (logged (Todo_findById_op oid)) ;;
      let* s := get in
      ret (pair oid <$> todos s !! oid)
  end.

(** [Todo.find({ userId })] *)
Definition Todo_find (userId : ObjectId) : M (list (ObjectId * Todo.t)) :=
  modify (logged (Todo_find_op userId)) ;;
  let* s := get in
  ret (map_to_list (filter (owned_by userId) (todos s))).

(** [todo.save()] of a new document. [_id] is [None] when the
    constructor could not cast the identifier it was given: validation
    then fails before anything is sent. *)
Definition Todo_save (_id : option ObjectId) (doc : Todo.t)
    : M (ObjectId * Todo.t) :=
  match _id with
  | None => throw "todos validation failed: _id: Cast to ObjectId failed"
  | Some id =>
      modify (logged (Todo_save_op id)) ;;
      let* s := get in
      match todos s !! id with
      | Some _ => throw "E11000 duplicate key error collection: todos index: _id_"
      | None => modify (with_todos (insert id doc)) ;; ret (id, doc)
      end
  end.

(** [Todo.updateMany({ _id }, { $set: { content } })] *)
Definition Todo_updateMany (_id : ObjectId) (content : string) : M unit :=
  modify (logged (Todo_updateMany_op _id content)) ;;
  modify (with_todos (alter (Todo.set_content content) _id)).

(** [todo.deleteOne()] on a fetched document *)
Definition Todo_deleteOne (_id : ObjectId) : M unit :=
  modify (logged (Todo_deleteOne_op _id)) ;;
  modify (with_todos (delete _id)).

(** [Todo.deleteMany({ userId })] *)
Definition Todo_deleteMany (userId : ObjectId) : M unit :=
  modify (logged (Todo_deleteMany_op userId)) ;;
  modify (with_todos (filter (fun d => ~ owned_by userId d))).

(** [new Todo(req.body)]: the paths of the schema are copied from the
    body and cast; an [_id] the body does not bring is generated
    ([fresh]). A [userId] that does not cast leaves the path unset. *)
Definition new_Todo (fresh : ObjectId) (body : TodoRequest.t)
    : option ObjectId * Todo.t :=
  (match TodoRequest._id body with
   | Some i => castObjectId host i
   | None => Some fresh
   end,
   Todo.mk (TodoRequest.content body) (TodoRequest.createdTime body)
     (TodoRequest.userId body ≫= castObjectId host)).

(** *** routes/middlewares/authorization.js *)

(** Modelled from the spec: [verifyToken] is not among the sources.
    Section 4.2: given the bearer token of the auth header, verify its
    signature with the server-held secret, that it has not expired and
    that it matches the expected issuer and audience; on success the
    encoded subject is handed to the next stage ([res.locals.sub]), on
    any failure, a missing token included, the request ends with
    Unauthorized. The gate is stateless and does not touch the store. *)
Definition verifyToken (clock : Z) (authorization : option Jwt.t)
    : Response + ObjectId :=
  match authorization with
  | None => inl (reply 401 (JError "Unauthorized"))
  | Some tok =>
      match Jwt.verify tok (JWT_TOKEN_SECRET host) (JWT_ISSUER host)
              (JWT_AUDIENCE host) clock with
      | Some (Some sub) => inr sub
      | _ => inl (reply 401 (JError "Unauthorized"))
      end
  end.

(** A protected route: the handler runs only behind the gate. *)
Definition protected (clock : Z) (authorization : option Jwt.t)
    (handler : ObjectId -> M Response) : M Response :=
  match verifyToken clock authorization with
  | inl r => ret r
  | inr sub => handler sub
  end.

(** *** routes/auth.js *)

Definition createHashedPassword (password : string) : string :=
  sha512_base64 host password.

(** [router.get('/public/search')] *)
Definition search (email : option string) : M Response :=
  if negb (regex_test email) then ret (reply 400 (JError "Bad request"))
  else
    try_catch
      (let* existingUser := UserInfo_findOne (js_to_string email) None in
       match existingUser with
       | Some _ => ret (reply 409 (JError "User with this email already exists"))
       | None => ret (reply 200 (JMessage "OK"))
       end)
      (fun err => ret (reply 500 (JError err))).

(** [router.post('/public/login')]; [clock] is the time at which
    [jwt.sign] stamps the token. *)
Definition login (clock : Z) (body : LoginRequest.t) : M Response :=
  let email := LoginRequest.email body in
  let password := LoginRequest.password body in
  if falsy email || falsy password then ret (reply 400 (JError "Bad request"))
  else
    try_catch
      (let* user :=
         UserInfo_findOne (str email) (Some (createHashedPassword (str password))) in
       match user with
       | Some u =>
           modify (with_options_sub u.1) ;;
           let* s := get in
           let token :=
             Jwt.sign (JWT_ISSUER host) (JWT_AUDIENCE host) (options_sub s)
               (JWT_TOKEN_SECRET host) (JWT_ACCESS_TOKEN_EXPIRES_IN host) clock in
           ret (mkResponse 200 (JAccessToken token) (Some ("user", token)))
       | None => ret (reply 401 (JError "Invalid credentials"))
       end)
      (fun err => ret (reply 500 (JError err))).

(** [router.post('/public/sign-up')]; [now] is what
    [getFormattedDate()] returns and [fresh] the identifier the new
    document is given. *)
Definition sign_up (now : string) (fresh : ObjectId) (body : SignUpRequest.t)
    : M Response :=
  let email := SignUpRequest.email body in
  let password := SignUpRequest.password body in
  let username := SignUpRequest.username body in
  if falsy email || falsy password || falsy username
  then ret (reply 400 (JError "Bad request"))
  else
    try_catch
      (let* existingUser := UserInfo_findOne (str email) None in
       match existingUser with
       | Some _ =>
           ret (reply 400
                  (JError "Bad request or user with this email already exists"))
       | None =>
           let user :=
             UserInfo.mk (str email) (createHashedPassword (str password))
               (str username) now in
           let* newUser := UserInfo_save (fresh, user) in
           ret (reply 201 (JUser newUser))
       end)
      (fun err => ret (reply 500 (JError err))).

(** The handler of [router.delete('/private/delete-account')] *)
Definition delete_account (userId : ObjectId) : M Response :=
  try_catch
    (UserInfo_findByIdAndDelete userId ;;
     Todo_deleteMany userId ;;
     ret (reply 200 (JMessage "Account deleted successfully")))
    (fun err => ret (reply 500 (JError err))).

(** *** routes/todos.js *)

(** [getTodo]: either it answers itself or it calls [next()] with
    [res.todo] set. *)
Definition getTodo (todoId : string) : M (Response + ObjectId * Todo.t) :=
  if bool_decide (todoId = "") then ret (inl (reply 400 (JError "Bad Request")))
  else if negb (ObjectId_isValid todoId)
  then ret (inl (reply 415 (JError "Unsupported Media Type")))
  else
    try_catch
      (let* todo := Todo_findById todoId in
       match todo with
       | None => ret (inl (reply 404 (JError "Not Found")))
       | Some t => ret (inr t)
       end)
      (fun err => ret (inl (reply 500 (JError err)))).

(** The handler of [router.get('/private')] *)
Definition list_todos (userId : ObjectId) : M Response :=
  try_catch
    (let* todos := Todo_find userId in
     if bool_decide (length todos = 0) then ret (reply 404 (JError "Not Found"))
     else ret (reply 200 (JTodos todos)))
    (fun err => ret (reply 500 (JError err))).

(** The handler of [router.post('/private')] *)
Definition create_todo (now : string) (fresh : ObjectId)
    (body : TodoRequest.t) (userId : ObjectId) : M Response :=
  if falsy (TodoRequest.content body) then ret (reply 400 (JError "Bad Request"))
  else
    try_catch
      (let todo := new_Todo fresh body in
       let todo := (todo.1, Todo.set_userId userId todo.2) in
       let todo := (todo.1, Todo.set_createdTime now todo.2) in
       let* newTodo := Todo_save todo.1 todo.2 in
       ret (reply 201 (JTodo newTodo)))
      (fun err => ret (reply 500 (JError err))).

(** The handler of [router.patch('/private/todos/:id')], behind
    [getTodo]; [content] is the property of that name of [req.body]. *)
Definition update_todo (content : option string) (todo : ObjectId * Todo.t)
    : M Response :=
  if falsy content then ret (reply 400 (JError "Bad Request"))
  else
    try_catch
      (Todo_updateMany todo.1 (str content) ;;
       ret (reply 200 (JMessage "OK")))
      (fun err => ret (reply 500 (JError err))).

(** The handler of [router.delete('/private/todos/:id')], behind [getTodo] *)
Definition delete_todo (todo : ObjectId * Todo.t) : M Response :=
  try_catch
    (Todo_deleteOne todo.1 ;;
     ret (reply 200 (JMessage "OK")))
    (fun err => ret (reply 500 (JError err))).

(** [verifyToken, getTodo, handler]: the chain stops at the first
    stage that answers. The identity the gate extracted is not passed
    on: neither handler reads [res.locals.sub]. *)
Definition behind_getTodo (todoId : string)
    (handler : ObjectId * Todo.t -> M Response) (_ : ObjectId) : M Response :=
  let* g := getTodo todoId in
  match g with
  | inl r => ret r
  | inr todo => handler todo
  end.

(** *** The routes as the routers register them *)

Definition GET_private (clock : Z) (authorization : option Jwt.t) : M Response :=
  protected clock authorization list_todos.

Definition POST_private (clock : Z) (authorization : option Jwt.t)
    (now : string) (fresh : ObjectId) (body : TodoRequest.t) : M Response :=
  protected clock authorization (create_todo now fresh body).

Definition PATCH_private_todos (clock : Z) (authorization : option Jwt.t)
    (id : string) (content : option string) : M Response :=
  protected clock authorization (behind_getTodo id (update_todo content)).

Definition DELETE_private_todos (clock : Z) (authorization : option Jwt.t)
    (id : string) : M Response :=
  protected clock authorization (behind_getTodo id delete_todo).

Definition DELETE_private_delete_account (clock : Z)
    (authorization : option Jwt.t) : M Response :=
  protected clock authorization delete_account.

End Routers.

(** ** A concrete platform, to run the routers on

    [hex24] accepts the 24-digit hexadecimal strings and reads them
    without regard to case; the digest is a stand-in that merely tags
    its input. *)

Definition lower (c : ascii) : ascii :=
  if Regex.range "A" "Z" c then ascii_of_nat (nat_of_ascii c + 32) else c.

Definition hex_digit (c : ascii) : bool :=
  Regex.range "0" "9" c || Regex.range "a" "f" c || Regex.range "A" "F" c.

Definition hex24 (s : string) : option ObjectId :=
  let cs := list_ascii_of_string s in
  if bool_decide (length cs = 24) && forallb hex_digit cs
  then Some (OID (string_of_list_ascii (List.map lower cs)))
  else None.

Definition demo : Platform :=
  mkPlatform (fun p => "sha512:" +:+ p) hex24 "rami" "rami-clients" "s3cret" 600.

Definition alice : ObjectId := OID "64baca441b06f5692d59ca85".
Definition bob : ObjectId := OID "64baca441b06f5692d59ca86".
Definition milk : ObjectId := OID "64c4f0a91b06f5692d59cb01".
Definition eggs : ObjectId := OID "64c4f0a91b06f5692d59cb02".

Definition alice_info : UserInfo.t :=
  UserInfo.mk "a@b.com" "sha512:p1" "u" "2023-07-29 20:44:51.681".
Definition milk_todo : Todo.t :=
  Todo.mk (Some "buy milk") (Some "2023-07-29 20:45:00.000") (Some alice).
Definition eggs_todo : Todo.t :=
  Todo.mk (Some "buy eggs") (Some "2023-07-29 20:46:00.000") (Some bob).

(** Alice is registered and owns one todo; Bob's account is gone but
    one todo still carries his identifier. *)
Definition world : Server :=
  mkServer {[ alice := alice_info ]}
           (<[ milk := milk_todo ]> {[ eggs := eggs_todo ]})
           None [].

(** The token a login of Alice at time 100 returns. *)
Definition alice_token : Jwt.t :=
  Jwt.sign "rami" "rami-clients" (Some alice) "s3cret" 600 100.

(** Emails are unique across the user collection (section 3). *)
Definition unique_emails (m : gmap ObjectId UserInfo.t) : Prop :=
  forall i j u v,
    m !! i = Some u -> m !! j = Some v ->
    UserInfo.email u = UserInfo.email v -> i = j.

(** A todo as the create route stores it: non-empty content, a
    timestamp and an owner. *)
Definition complete_todo (t : Todo.t) : Prop :=
  (exists c, Todo.content t = Some c /\ c <> "")
  /\ is_Some (Todo.createdTime t)
  /\ is_Some (Todo.userId t).

Definition todos_complete (m : gmap ObjectId Todo.t) : Prop :=
  forall i t, m !! i = Some t -> complete_todo t.

(** A user record as sign-up stores it: no empty e-mail or name. *)
Definition users_named (m : gmap ObjectId UserInfo.t) : Prop :=
  forall i u, m !! i = Some u ->
    UserInfo.email u <> "" /\ UserInfo.username u <> "".

(** Number of occurrences of a character. *)
Definition occurrences (a : ascii) (w : list ascii) : nat :=
  length (List.filter (Ascii.eqb a) w).

Definition carol : ObjectId := OID "64baca441b06f5692d59ca87".
Definition bread : ObjectId := OID "64c4f0a91b06f5692d59cb03".

Definition carol_request : SignUpRequest.t :=
  SignUpRequest.mk (Some "carol@example.org") (Some "p3") (Some "carol").
Definition carol_info : UserInfo.t :=
  UserInfo.mk "carol@example.org" "sha512:p3" "carol" "2023-07-30 09:00:00.000".
Definition bread_request : TodoRequest.t :=
  TodoRequest.mk None (Some "buy bread") (Some "1999-01-01") (Some (hex bob)).
Definition bread_todo : Todo.t :=
  Todo.mk (Some "buy bread") (Some "2023-07-30 09:00:00.000") (Some alice).

(** * Properties *)

(** ** The e-mail pattern on examples *)

Example regex_test_ok : regex_test (Some "a@b.com") = true.
Proof. reflexivity. Qed.

Example regex_test_subdomain :
  regex_test (Some "first.last+tag@mail.example.org") = true.
Proof. reflexivity. Qed.

Example regex_test_short_tld : regex_test (Some "a@b.c") = false.
Proof. reflexivity. Qed.

Example regex_test_no_at : regex_test (Some "ab.com") = false.
Proof. reflexivity. Qed.

Example regex_test_undefined : regex_test None = false.
Proof. reflexivity. Qed.

(** ** The matcher decides the denotation *)

Lemma Regex_nullable_spec (r : Regex.re) :
  Regex.nullable r = true <-> Regex.Matches r [].
Proof.
  split.
  - induction r as [| |p|r IHr q IHq|r IHr q IHq|r IHr]; simpl; intros H;
      try discriminate.
    + constructor.
    + apply andb_true_iff in H as [Hr Hq].
      exact (Regex.MCat r q [] [] (IHr Hr) (IHq Hq)).
    + apply orb_true_iff in H as [Hr|Hq].
      * apply Regex.MAltL; auto.
      * apply Regex.MAltR; auto.
    + constructor.
  - intros H. remember [] as w eqn:Hw.
    induction H as [|p c Hc|r q u v Hu IHu Hv IHv|r q u Hu IHu|r q u Hu IHu
                   |r|r c u v Hu IHu Hv IHv]; simpl; try done.
    + apply app_eq_nil in Hw as [-> ->]. by rewrite IHu, IHv.
    + by rewrite IHu.
    + rewrite IHu by done. apply orb_true_r.
Qed.

Lemma Regex_deriv_sound (c : ascii) (r : Regex.re) (w : list ascii) :
  Regex.Matches (Regex.deriv c r) w -> Regex.Matches r (c :: w).
Proof.
  revert w.
  induction r as [| |p|r IHr q IHq|r IHr q IHq|r IHr]; simpl; intros w H.
  - inversion H.
  - inversion H.
  - destruct (p c) eqn:Hp; inversion H; subst. by constructor.
  - destruct (Regex.nullable r) eqn:Hn.
    + inversion H as [| | |? ? ? H1|? ? ? H1| |]; subst.
      * inversion H1 as [| |? ? u v Hu Hv| | | |]; subst.
        exact (Regex.MCat r q (c :: u) v (IHr _ Hu) Hv).
      * apply Regex_nullable_spec in Hn.
        exact (Regex.MCat r q [] (c :: w) Hn (IHq _ H1)).
    + inversion H as [| |? ? u v Hu Hv| | | |]; subst.
      exact (Regex.MCat r q (c :: u) v (IHr _ Hu) Hv).
  - inversion H; subst.
    + apply Regex.MAltL; auto.
    + apply Regex.MAltR; auto.
  - inversion H as [| |? ? u v Hu Hv| | | |]; subst.
    apply Regex.MStarS; auto.
Qed.

Lemma Regex_deriv_complete (c : ascii) (r : Regex.re) (w : list ascii) :
  Regex.Matches r (c :: w) -> Regex.Matches (Regex.deriv c r) w.
Proof.
  intros H. remember (c :: w) as cw eqn:Hcw. revert w Hcw.
  induction H as [|p c0 Hc|r q u v Hu IHu Hv IHv|r q u Hu IHu|r q u Hu IHu
                 |r|r c0 u v Hu IHu Hv IHv]; intros w Hcw; simpl.
  - discriminate.
  - injection Hcw as -> <-. rewrite Hc. constructor.
  - destruct u as [|c1 u].
    + simpl in Hcw. subst v. apply Regex_nullable_spec in Hu. rewrite Hu.
      apply Regex.MAltR. by apply IHv.
    + injection Hcw as -> <-.
      assert (Regex.Matches (Regex.Cat (Regex.deriv c r) q) (u ++ v)) as Hcat
        by (constructor; [by apply IHu|done]).
      destruct (Regex.nullable r); [by apply Regex.MAltL|done].
  - apply Regex.MAltL. by apply IHu.
  - apply Regex.MAltR. by apply IHu.
  - discriminate.
  - injection Hcw as -> <-. constructor; [by apply IHu|done].
Qed.

Lemma Regex_accepts_spec (r : Regex.re) (w : list ascii) :
  Regex.accepts r w = true <-> Regex.Matches r w.
Proof.
  revert r. induction w as [|c w IH]; intros r; simpl.
  - apply Regex_nullable_spec.
  - rewrite IH. split; [apply Regex_deriv_sound|apply Regex_deriv_complete].
Qed.

(** A repeated character class matches the words over the class. *)
Lemma Regex_star_class (p : ascii -> bool) (w : list ascii) :
  Regex.Matches (Regex.Star (Regex.Set_ p)) w <-> forallb p w = true.
Proof.
  split.
  - intros H. remember (Regex.Star (Regex.Set_ p)) as r eqn:Hr.
    induction H as [| | | | |r|r c u v Hu _ Hv IHv]; try discriminate.
    + done.
    + injection Hr as ->. inversion Hu; subst. simpl.
      rewrite IHv by done. by rewrite andb_true_r.
  - induction w as [|c w IH]; simpl; intros H.
    + constructor.
    + apply andb_true_iff in H as [Hc Hw].
      apply (Regex.MStarS (Regex.Set_ p) c [] w); [by constructor|auto].
Qed.

Lemma Regex_plus_class (p : ascii -> bool) (w : list ascii) :
  Regex.Matches (Regex.Plus (Regex.Set_ p)) w <->
  w <> [] /\ forallb p w = true.
Proof.
  unfold Regex.Plus. split.
  - intros H. inversion H as [| |? ? u v Hu Hv| | | |]; subst.
    inversion Hu; subst. apply Regex_star_class in Hv. simpl.
    split; [done|]. by apply andb_true_iff.
  - intros [Hne H]. destruct w as [|c w]; [done|]. simpl in H.
    apply andb_true_iff in H as [Hc Hw].
    apply (Regex.MCat _ _ [c] w); [by constructor|by apply Regex_star_class].
Qed.

(** What the e-mail pattern accepts: a non-empty local part, [@], a
    non-empty domain, a dot and at least two letters. *)
Lemma regex_test_shape (s : string) :
  regex_test (Some s) = true <->
  exists l d t : list ascii,
    list_ascii_of_string s = (l ++ "@"%char :: d ++ "."%char :: t)%list
    /\ l <> [] /\ forallb local_char l = true
    /\ d <> [] /\ forallb domain_char d = true
    /\ 2 <= length t /\ forallb letter t = true.
Proof.
  unfold regex_test, Regex.test. simpl js_to_string.
  rewrite Regex_accepts_spec. unfold regex, Regex.AtLeast2, Regex.chr. split.
  - intros H.
    inversion H as [| |? ? l w1 Ml K1| | | |]; subst.
    inversion K1 as [| |? ? a w2 Ma K2| | | |]; subst.
    inversion K2 as [| |? ? d w3 Md K3| | | |]; subst.
    inversion K3 as [| |? ? b w4 Mb K4| | | |]; subst.
    inversion K4 as [| |? ? t1 w5 Mt1 K5| | | |]; subst.
    inversion K5 as [| |? ? t2 t3 Mt2 Mt3| | | |]; subst.
    apply Regex_plus_class in Ml as [Hl1 Hl2].
    apply Regex_plus_class in Md as [Hd1 Hd2].
    apply Regex_star_class in Mt3.
    inversion Ma as [|? ? Hca| | | | |]; subst. apply Ascii.eqb_eq in Hca. subst.
    inversion Mb as [|? ? Hcb| | | | |]; subst. apply Ascii.eqb_eq in Hcb. subst.
    inversion Mt1 as [|? c1 Hc1| | | | |]; subst.
    inversion Mt2 as [|? c2 Hc2| | | | |]; subst.
    exists l, d, (c1 :: c2 :: t3). simpl. rewrite Hc1, Hc2, Mt3.
    repeat split; try done. lia.
  - intros (l & d & t & -> & Hl1 & Hl2 & Hd1 & Hd2 & Ht1 & Ht2).
    destruct t as [|c1 [|c2 t3]]; simpl in Ht1; try lia.
    simpl in Ht2. apply andb_true_iff in Ht2 as [Hc1 Ht2].
    apply andb_true_iff in Ht2 as [Hc2 Ht3].
    apply Regex.MCat; [by apply Regex_plus_class|].
    apply (Regex.MCat _ _ ["@"%char]); [by constructor|].
    apply Regex.MCat; [by apply Regex_plus_class|].
    apply (Regex.MCat _ _ ["."%char]); [by constructor|].
    apply (Regex.MCat _ _ [c1]); [by constructor|].
    apply (Regex.MCat _ _ [c2]); [by constructor|].
    by apply Regex_star_class.
Qed.

(** ** The request monad *)

Lemma try_catch_returns {A} (m : M A) (h : string -> A) (s : Server) :
  exists a s', try_catch m (fun err => ret (h err)) s = (Returned a, s').
Proof.
  unfold try_catch, ret. destruct (m s) as [[a|e] s']; eauto.
Qed.

(** ** The collection primitives *)

Lemma find_map_to_list_Some {A} (P : ObjectId * A -> bool)
    (m : gmap ObjectId A) (d : ObjectId * A) :
  List.find P (map_to_list m) = Some d -> m !! d.1 = Some d.2 /\ P d = true.
Proof.
  intros H. apply List.find_some in H as [Hin HP]. split; [|done].
  apply elem_of_map_to_list. destruct d. by apply list_elem_of_In.
Qed.

Lemma find_map_to_list_None {A} (P : ObjectId * A -> bool)
    (m : gmap ObjectId A) :
  List.find P (map_to_list m) = None <->
  forall i x, m !! i = Some x -> P (i, x) = false.
Proof.
  split.
  - intros H i x Hix. apply (List.find_none _ _ H).
    apply list_elem_of_In. by apply elem_of_map_to_list.
  - intros H. destruct (List.find P (map_to_list m)) as [[i x]|] eqn:E; [|done].
    apply find_map_to_list_Some in E as [Hix HP]. simpl in *.
    rewrite (H _ _ Hix) in HP. discriminate.
Qed.

Lemma UserInfo_matches_email e i u :
  UserInfo_matches e None (i, u) = true <-> UserInfo.email u = e.
Proof.
  unfold UserInfo_matches. simpl. rewrite andb_true_r.
  apply bool_decide_eq_true.
Qed.

Lemma UserInfo_matches_credentials e h i u :
  UserInfo_matches e (Some h) (i, u) = true <->
  UserInfo.email u = e /\ UserInfo.password u = h.
Proof.
  unfold UserInfo_matches. simpl. rewrite andb_true_iff.
  by rewrite !bool_decide_eq_true.
Qed.

(** [findOne({ email })] finds a document exactly when one has that
    e-mail. *)
Lemma findOne_email_None (m : gmap ObjectId UserInfo.t) e :
  List.find (UserInfo_matches e None) (map_to_list m) = None <->
  forall i u, m !! i = Some u -> UserInfo.email u <> e.
Proof.
  rewrite find_map_to_list_None. split; intros H i u Hiu.
  - intros He. apply (UserInfo_matches_email e i) in He.
    rewrite (H _ _ Hiu) in He. discriminate.
  - destruct (UserInfo_matches e None (i, u)) eqn:E; [|done].
    apply UserInfo_matches_email in E. by destruct (H _ _ Hiu).
Qed.

Lemma findOne_email_Some (m : gmap ObjectId UserInfo.t) e :
  is_Some (List.find (UserInfo_matches e None) (map_to_list m)) <->
  exists i u, m !! i = Some u /\ UserInfo.email u = e.
Proof.
  split.
  - intros [[i u] H]. apply find_map_to_list_Some in H as [H1 H2].
    exists i, u. split; [done|]. by apply (UserInfo_matches_email e i).
  - intros (i & u & Hiu & He).
    destruct (List.find _ _) eqn:E; [by eexists|].
    destruct (proj1 (findOne_email_None _ _) E _ _ Hiu He).
Qed.

Section RouterProperties.

Variable host : Platform.

(** ** routes/auth.js *)

(** C8. Checking an e-mail for availability: an input the pattern
    rejects is answered 400 and the store is not consulted (nothing is
    logged, the server is as before); an input it accepts costs exactly
    one [findOne] and is answered 200 exactly when no stored user has
    that e-mail and 409 exactly when one has. *)
Theorem search_email_availability (email : option string) (s : Server) :
  let r := respond (search email) s in
  if regex_test email then
    r.2 = logged (UserInfo_findOne_op (js_to_string email) None) s
    /\ (r.1 = reply 200 (JMessage "OK") <->
        forall i u, user_infos s !! i = Some u ->
                    UserInfo.email u <> js_to_string email)
    /\ (r.1 = reply 409 (JError "User with this email already exists") <->
        exists i u, user_infos s !! i = Some u
                    /\ UserInfo.email u = js_to_string email)
    /\ (status r.1 = 200 \/ status r.1 = 409)
  else r = (reply 400 (JError "Bad request"), s).
Proof.
  unfold respond, search. destruct (regex_test email); simpl; [|done].
  unfold try_catch, bind, UserInfo_findOne, modify, get, ret. simpl.
  destruct (List.find _ _) as [d|] eqn:E; simpl.
  - assert (Hex : exists i u, user_infos s !! i = Some u
                              /\ UserInfo.email u = js_to_string email).
    { apply findOne_email_Some. rewrite E. by eexists. }
    split; [done|]. split; [|split; [done|by right]].
    split; [discriminate|].
    intros Hno. destruct Hex as (j & v & Hjv & Hv). by destruct (Hno _ _ Hjv).
  - assert (Hno := proj1 (findOne_email_None _ _) E).
    split; [done|]. split; [done|]. split; [|by left].
    split; [discriminate|].
    intros (i & u & Hiu & He). by destruct (Hno _ _ Hiu).
Qed.

(** Under unique e-mails a stored user is what [findOne] returns for
    its own credentials, and nothing is returned for its e-mail with
    another password hash. *)
Lemma findOne_credentials_Some (m : gmap ObjectId UserInfo.t) i u :
  unique_emails m -> m !! i = Some u ->
  List.find (UserInfo_matches (UserInfo.email u) (Some (UserInfo.password u)))
    (map_to_list m) = Some (i, u).
Proof.
  intros Huniq Hiu. destruct (List.find _ _) as [[j v]|] eqn:E.
  - apply find_map_to_list_Some in E as [Hjv Hm]. simpl in Hjv.
    apply UserInfo_matches_credentials in Hm as [He _].
    assert (j = i) as -> by exact (Huniq _ _ _ _ Hjv Hiu He).
    congruence.
  - pose proof (proj1 (find_map_to_list_None _ _) E _ _ Hiu) as Hm.
    assert (UserInfo_matches (UserInfo.email u) (Some (UserInfo.password u))
              (i, u) = true) as Ht by by apply UserInfo_matches_credentials.
    congruence.
Qed.

Lemma findOne_credentials_None (m : gmap ObjectId UserInfo.t) e h :
  (forall i u, m !! i = Some u -> UserInfo.email u = e ->
               UserInfo.password u <> h) ->
  List.find (UserInfo_matches e (Some h)) (map_to_list m) = None.
Proof.
  intros H. apply find_map_to_list_None. intros i u Hiu.
  destruct (UserInfo_matches e (Some h) (i, u)) eqn:E; [|done].
  apply UserInfo_matches_credentials in E as [He Hp].
  destruct (H _ _ Hiu He Hp).
Qed.

(** C2, as the code has it. A login request whose e-mail or password
    is empty or absent is answered 400 "Bad request" and the server is
    as before: nothing was looked up. For a request whose e-mail and
    password are both non-empty strings, exactly one [findOne] is
    issued and neither collection changes; on a store with unique
    e-mails, for the user registered with that e-mail: if the hash of
    the password is the stored one the answer is 200, the token in the
    body is the very token set as cookie [user], it is signed with the
    server secret, its subject is that user's identifier and it
    verifies at the time of issue when the lifetime is positive; if
    the hash differs the answer is 401 "Invalid credentials". When no
    user has the e-mail the answer is that same 401. *)
Theorem login_credentials (clock : Z) (body : LoginRequest.t) (s : Server) :
  let e := str (LoginRequest.email body) in
  let h := createHashedPassword host (str (LoginRequest.password body)) in
  let r := respond (login host clock body) s in
  let denied := reply 401 (JError "Invalid credentials") in
  if falsy (LoginRequest.email body) || falsy (LoginRequest.password body)
  then r = (reply 400 (JError "Bad request"), s)
  else
    (unique_emails (user_infos s) ->
     forall i u, user_infos s !! i = Some u -> UserInfo.email u = e ->
       if decide (UserInfo.password u = h) then
         exists tok,
           r.1 = mkResponse 200 (JAccessToken tok) (Some ("user", tok))
           /\ Jwt.key tok = JWT_TOKEN_SECRET host
           /\ Jwt.sub tok = Some i
           /\ ((0 < JWT_ACCESS_TOKEN_EXPIRES_IN host)%Z ->
               Jwt.verify tok (JWT_TOKEN_SECRET host) (JWT_ISSUER host)
                 (JWT_AUDIENCE host) clock = Some (Some i))
       else r.1 = denied)
    /\ ((forall i u, user_infos s !! i = Some u -> UserInfo.email u <> e) ->
        r.1 = denied)
    /\ user_infos r.2 = user_infos s
    /\ todos r.2 = todos s
    /\ oplog r.2 = (oplog s ++ [UserInfo_findOne_op e (Some h)])%list.
Proof.
  intros e h r denied. subst r. unfold respond, login.
  destruct (falsy (LoginRequest.email body) || falsy (LoginRequest.password body));
    simpl; [done|].
  unfold try_catch, bind, UserInfo_findOne, modify, get, ret. simpl.
  fold e h. split; [|split].
  - intros Huniq i u Hiu Hue.
    destruct (decide (UserInfo.password u = h)) as [Hh|Hh].
    + subst e h. rewrite <- Hue, <- Hh.
      rewrite (findOne_credentials_Some _ _ _ Huniq Hiu). simpl.
      eexists. split; [reflexivity|]. split; [done|]. split; [done|].
      intros Hpos. unfold Jwt.verify, Jwt.sign. simpl.
      rewrite !bool_decide_eq_true_2; [done|done|done|lia|done].
    + rewrite findOne_credentials_None; [done|].
      intros j v Hjv Hve.
      assert (j = i) as -> by (apply (Huniq _ _ _ _ Hjv Hiu); congruence).
      congruence.
  - intros Hno. rewrite findOne_credentials_None; [done|].
    intros j v Hjv Hve. destruct (Hno _ _ Hjv Hve).
  - by destruct (List.find _ _).
Qed.

(** Registration keeps e-mails unique, so every store reached from the
    empty one by sign-ups satisfies the hypothesis above. *)
Lemma sign_up_keeps_emails_unique (now : string) (fresh : ObjectId)
    (body : SignUpRequest.t) (s : Server) :
  unique_emails (user_infos s) ->
  unique_emails (user_infos (respond (sign_up host now fresh body) s).2).
Proof.
  intros Huniq. unfold respond, sign_up.
  destruct (falsy _ || falsy _ || falsy _); simpl; [done|].
  unfold try_catch, UserInfo_findOne, UserInfo_save, bind, modify, get, ret,
    throw. simpl.
  destruct (List.find _ _) as [d|] eqn:E; simpl; [done|].
  destruct (user_infos s !! fresh) eqn:Hf; simpl; [done|].
  pose proof (proj1 (findOne_email_None _ _) E) as Hno.
  intros i j u v Hiu Hjv Huv.
  destruct (decide (i = fresh)) as [->|Hi], (decide (j = fresh)) as [->|Hj];
    try done.
  - rewrite lookup_insert_eq in Hiu. rewrite lookup_insert_ne in Hjv by done.
    injection Hiu as <-. simpl in Huv. by destruct (Hno _ _ Hjv).
  - rewrite lookup_insert_eq in Hjv. rewrite lookup_insert_ne in Hiu by done.
    injection Hjv as <-. simpl in Huv. by destruct (Hno _ _ Hiu).
  - rewrite lookup_insert_ne in Hiu, Hjv by done. eauto.
Qed.

Lemma verifyToken_later (clock clock' : Z) (tok : Jwt.t) (uid : ObjectId) :
  verifyToken host clock (Some tok) = inr uid ->
  (clock' < Jwt.exp tok)%Z ->
  verifyToken host clock' (Some tok) = inr uid.
Proof.
  unfold verifyToken, Jwt.verify. intros H Hlt.
  destruct (bool_decide (Jwt.key tok = _)); simpl in *; [|done].
  destruct (bool_decide (clock < _)%Z); simpl in *; [|done].
  by rewrite (bool_decide_eq_true_2 _ Hlt).
Qed.

(** C4, as the code has it. Deleting the account of the identity a
    valid token carries answers 200; it first deletes the user record
    with that identifier and then the todos whose [userId] is that
    identifier: afterwards no user record has the identifier, the
    todos left are exactly those of other owners, and none of them
    names the identifier. The token itself stays valid until it
    expires: a list request presenting it before then passes the gate
    and, finding no todo, is answered 404 "Not Found". *)
Theorem delete_account_cascade (clock clock' : Z) (tok : Jwt.t)
    (uid : ObjectId) (s : Server) :
  verifyToken host clock (Some tok) = inr uid ->
  (clock' < Jwt.exp tok)%Z ->
  let r := respond (DELETE_private_delete_account host clock (Some tok)) s in
  r.1 = reply 200 (JMessage "Account deleted successfully")
  /\ oplog r.2
     = (oplog s ++ [UserInfo_findByIdAndDelete_op uid; Todo_deleteMany_op uid])%list
  /\ user_infos r.2 = delete uid (user_infos s)
  /\ user_infos r.2 !! uid = None
  /\ (forall i t, todos r.2 !! i = Some t <->
                  todos s !! i = Some t /\ Todo.userId t <> Some uid)
  /\ respond (GET_private host clock' (Some tok)) r.2
     = (reply 404 (JError "Not Found"), logged (Todo_find_op uid) r.2).
Proof.
  intros Hv Hlt. pose proof (verifyToken_later _ _ _ _ Hv Hlt) as Hv'.
  unfold DELETE_private_delete_account, GET_private, protected.
  rewrite Hv, Hv'.
  unfold respond, delete_account, list_todos, try_catch, bind,
    UserInfo_findByIdAndDelete, Todo_deleteMany, Todo_find, modify, get, ret.
  simpl. split; [done|]. split; [by rewrite <- app_assoc|]. split; [done|].
  split; [apply lookup_delete_eq|]. split.
  { intros i t. apply map_lookup_filter_Some. }
  assert (filter (owned_by uid)
            (filter (fun d => ~ owned_by uid d) (todos s)) = ∅) as ->.
  { apply map_empty. intros i. apply map_lookup_filter_None. right.
    intros t Hit Ho. by apply map_lookup_filter_Some in Hit as [_ ?]. }
  by rewrite map_to_list_empty.
Qed.

(** C5. Signing up with an e-mail a stored user already has is
    answered 400 whatever the other fields are, and both collections
    are left exactly as they were: the existing record is not altered
    and no record is added. *)
Theorem sign_up_duplicate_rejected (now : string) (fresh : ObjectId)
    (body : SignUpRequest.t) (s : Server) (i : ObjectId) (u : UserInfo.t) :
  user_infos s !! i = Some u ->
  SignUpRequest.email body = Some (UserInfo.email u) ->
  let r := respond (sign_up host now fresh body) s in
  status r.1 = 400
  /\ user_infos r.2 = user_infos s
  /\ todos r.2 = todos s
  /\ user_infos r.2 !! i = Some u.
Proof.
  intros Hiu He. unfold respond, sign_up. rewrite He.
  destruct (falsy _ || falsy _ || falsy _); simpl; [done|].
  unfold try_catch, bind, UserInfo_findOne, modify, get, ret. simpl.
  destruct (List.find _ _) as [d|] eqn:E; simpl; [done|].
  destruct (proj1 (findOne_email_None _ _) E _ _ Hiu eq_refl).
Qed.

(** C10. Deleting an account answers 200 "Account deleted
    successfully" from every server state, whether or not a user
    record with the identifier is stored; it never answers 404. After
    a first run no user record with the identifier is left, and a
    second run with the same identity answers the same 200 and leaves
    both collections as the first run left them. *)
Theorem delete_account_never_not_found (userId : ObjectId) (s : Server) :
  let ok := reply 200 (JMessage "Account deleted successfully") in
  let r1 := respond (delete_account userId) s in
  let r2 := respond (delete_account userId) r1.2 in
  r1.1 = ok
  /\ status r1.1 <> 404
  /\ user_infos r1.2 !! userId = None
  /\ r2.1 = ok
  /\ user_infos r2.2 = user_infos r1.2
  /\ todos r2.2 = todos r1.2.
Proof.
  unfold respond, delete_account, try_catch, bind, UserInfo_findByIdAndDelete,
    Todo_deleteMany, modify, get, ret. simpl.
  split; [done|]. split; [done|]. split; [apply lookup_delete_eq|].
  split; [done|]. split; [apply delete_delete_eq|].
  apply map_filter_id. intros i t Hit.
  by apply map_lookup_filter_Some in Hit as [_ ?].
Qed.

(** ** routes/todos.js *)

(** C6. Listing: the documents in the answer are exactly the todos of
    the store whose [userId] is the caller's, each once; the answer is
    404 when there are none and 200 with that list otherwise, so never
    200 with an empty array. Listing costs one [find] and changes
    nothing else. *)
Theorem list_todos_exactly_mine (userId : ObjectId) (s : Server) :
  let r := respond (list_todos userId) s in
  exists docs : list (ObjectId * Todo.t),
    NoDup docs
    /\ (forall i t, (i, t) ∈ docs <->
                    todos s !! i = Some t /\ Todo.userId t = Some userId)
    /\ r.1 = match docs with
             | [] => reply 404 (JError "Not Found")
             | _ :: _ => reply 200 (JTodos docs)
             end
    /\ r.1 <> reply 200 (JTodos [])
    /\ r.2 = logged (Todo_find_op userId) s.
Proof.
  exists (map_to_list (filter (owned_by userId) (todos s))).
  split; [apply NoDup_map_to_list|]. split.
  { intros i t. rewrite elem_of_map_to_list. apply map_lookup_filter_Some. }
  unfold respond, list_todos, try_catch, bind, Todo_find, modify, get, ret.
  simpl. by destruct (map_to_list _).
Qed.

Lemma ObjectId_isValid_cast (id : string) :
  ObjectId_isValid host id = true <-> is_Some (castObjectId host id).
Proof.
  unfold ObjectId_isValid. destruct (castObjectId host id); split; done.
Qed.

(** What [getTodo] does with a non-empty path identifier. *)
Lemma getTodo_run (todoId : string) (s : Server) :
  todoId <> "" ->
  getTodo host todoId s =
  match castObjectId host todoId with
  | None => (Returned (inl (reply 415 (JError "Unsupported Media Type"))), s)
  | Some oid =>
      (Returned match todos s !! oid with
                | None => inl (reply 404 (JError "Not Found"))
                | Some t => inr (oid, t)
                end,
       logged (Todo_findById_op oid) s)
  end.
Proof.
  intros Hne. unfold getTodo, ObjectId_isValid, Todo_findById.
  rewrite bool_decide_eq_false_2 by done.
  destruct (castObjectId host todoId) as [oid|]; simpl; [|done].
  unfold try_catch, bind, modify, get, ret. simpl.
  by destruct (todos s !! oid).
Qed.

Lemma alter_present {A} (f : A -> A) (m : gmap ObjectId A) i x :
  m !! i = Some x -> alter f i m = <[i := f x]> m.
Proof.
  intros Hix. apply map_eq. intros j. destruct (decide (i = j)) as [->|Hne].
  - by rewrite lookup_alter_eq, lookup_insert_eq, Hix.
  - by rewrite lookup_alter_ne, lookup_insert_ne.
Qed.

(** C9. The fetch-by-id gate in front of update and delete, for a
    request that has a path identifier. An identifier that does not
    cast to an ObjectId is answered 415 and the server is as before,
    so nothing was looked up; an identifier no todo has is answered
    404 after one [findById]; otherwise the todo found is what the
    handler behind the gate receives. Behind the gate, delete answers
    200 [{ message: "OK" }], and the todos of the server afterwards
    are those before without the one with that identifier: it is
    gone, every other todo is kept, the users are untouched. *)
Theorem getTodo_gate_and_delete (todoId : string) (uid : ObjectId)
    (handler : ObjectId * Todo.t -> M Response) (s : Server) :
  todoId <> "" ->
  match castObjectId host todoId with
  | None =>
      ObjectId_isValid host todoId = false
      /\ respond (behind_getTodo host todoId handler uid) s
         = (reply 415 (JError "Unsupported Media Type"), s)
  | Some oid =>
      let s1 := logged (Todo_findById_op oid) s in
      match todos s !! oid with
      | None =>
          respond (behind_getTodo host todoId handler uid) s
          = (reply 404 (JError "Not Found"), s1)
      | Some t =>
          getTodo host todoId s = (Returned (inr (oid, t)), s1)
          /\ respond (behind_getTodo host todoId handler uid) s
             = respond (handler (oid, t)) s1
          /\ let r := respond (behind_getTodo host todoId delete_todo uid) s in
             r.1 = reply 200 (JMessage "OK")
             /\ todos r.2 = delete oid (todos s)
             /\ todos r.2 !! oid = None
             /\ (forall j, j <> oid -> todos r.2 !! j = todos s !! j)
             /\ user_infos r.2 = user_infos s
             /\ oplog r.2
                = (oplog s ++ [Todo_findById_op oid; Todo_deleteOne_op oid])%list
      end
  end.
Proof.
  intros Hne. unfold respond, behind_getTodo, bind.
  rewrite (getTodo_run _ _ Hne). unfold ObjectId_isValid.
  destruct (castObjectId host todoId) as [oid|]; [|done].
  destruct (todos s !! oid) as [t|] eqn:Ht; simpl; [|done].
  split; [done|]. split; [done|]. split; [done|]. split; [done|].
  split; [apply lookup_delete_eq|].
  split; [intros j Hj; by apply lookup_delete_ne|].
  split; [done|]. by rewrite <- app_assoc.
Qed.

(** C7. Updating the content of a todo that exists. Empty or absent
    content is answered 400 and both collections are unchanged.
    Otherwise the answer is 200 [{ message: "OK" }], not the record,
    and the todos are as before except that the document with this
    identifier has the new content; its [createdTime] and [userId] are
    the old ones and it is still stored under the same identifier. *)
Theorem update_todo_content_only (todoId : string) (uid oid : ObjectId)
    (t : Todo.t) (content : option string) (s : Server) :
  todoId <> "" ->
  castObjectId host todoId = Some oid ->
  todos s !! oid = Some t ->
  let r := respond (behind_getTodo host todoId (update_todo content) uid) s in
  user_infos r.2 = user_infos s
  /\ if falsy content then
       r.1 = reply 400 (JError "Bad Request")
       /\ todos r.2 = todos s
     else
       r.1 = reply 200 (JMessage "OK")
       /\ todos r.2
          = <[oid := Todo.mk (Some (str content)) (Todo.createdTime t) (Todo.userId t)]>
              (todos s)
       /\ todos r.2 !! oid
          = Some (Todo.mk (Some (str content)) (Todo.createdTime t) (Todo.userId t))
       /\ forall j, j <> oid -> todos r.2 !! j = todos s !! j.
Proof.
  intros Hne Hc Ht. unfold respond, behind_getTodo, bind.
  rewrite (getTodo_run _ _ Hne), Hc, Ht. unfold update_todo.
  destruct (falsy content); simpl; [done|].
  unfold try_catch, bind, Todo_updateMany, modify, ret. simpl.
  rewrite (alter_present _ _ _ _ Ht). unfold Todo.set_content.
  split; [done|]. split; [done|]. split; [done|].
  split; [apply lookup_insert_eq|].
  intros j Hj. by apply lookup_insert_ne.
Qed.

(** C3. Creating a todo. Empty or absent content is answered 400 and
    the server is as before: nothing is created. Otherwise the
    document that is saved has the content of the body, [createdTime]
    the server's [now] and [userId] the caller's identifier, whatever
    [userId] and [createdTime] the body carried; it is answered 201 and
    added to the collection. The only way to fail then is the
    identifier: one the body supplied that does not cast, or one
    already taken, is answered 500 and no todo is created. *)
Theorem create_todo_owner_is_caller (now : string) (fresh : ObjectId)
    (body : TodoRequest.t) (uid : ObjectId) (s : Server) :
  let r := respond (create_todo host now fresh body uid) s in
  if falsy (TodoRequest.content body) then
    r = (reply 400 (JError "Bad Request"), s)
  else
    let doc := Todo.mk (TodoRequest.content body) (Some now) (Some uid) in
    user_infos r.2 = user_infos s
    /\ match TodoRequest._id body with
       | Some i => castObjectId host i
       | None => Some fresh
       end = (new_Todo host fresh body).1
    /\ match (new_Todo host fresh body).1 with
       | None => status r.1 = 500 /\ r.2 = s
       | Some id =>
           match todos s !! id with
           | Some _ => status r.1 = 500 /\ todos r.2 = todos s
           | None =>
               r.1 = reply 201 (JTodo (id, doc))
               /\ todos r.2 = <[id := doc]> (todos s)
               /\ Todo.userId doc = Some uid
               /\ Todo.createdTime doc = Some now
           end
       end.
Proof.
  unfold respond, create_todo.
  destruct (falsy (TodoRequest.content body)); simpl; [done|].
  unfold try_catch, Todo_save. simpl.
  destruct (match TodoRequest._id body with
            | Some i => castObjectId host i
            | None => Some fresh
            end) as [id|]; simpl; [|done].
  unfold bind, modify, get, ret, throw. simpl.
  by destruct (todos s !! id).
Qed.

(** C1, as the code has it. Listing reads only the caller's todos and
    changes none. Update and delete reach a todo through its
    identifier alone: each either leaves the collection as it was or
    acts on the one document whose identifier is the path's, and
    whose owner is not looked at -- the whole outcome is the same for
    every caller identity. *)
Theorem todo_access_scope (uid : ObjectId) (todoId : string)
    (content : option string) (s : Server) :
  let l := respond (list_todos uid) s in
  let p := respond (behind_getTodo host todoId (update_todo content) uid) s in
  let d := respond (behind_getTodo host todoId delete_todo uid) s in
  (todos l.2 = todos s
   /\ exists docs, Forall (owned_by uid) docs
        /\ (json l.1 = JTodos docs \/ json l.1 = JError "Not Found"))
  /\ (todos p.2 = todos s
      \/ exists oid t, castObjectId host todoId = Some oid
            /\ todos s !! oid = Some t
            /\ todos p.2 = <[oid := Todo.set_content (str content) t]> (todos s))
  /\ (todos d.2 = todos s
      \/ exists oid t, castObjectId host todoId = Some oid
            /\ todos s !! oid = Some t
            /\ todos d.2 = delete oid (todos s))
  /\ (forall uid',
        respond (behind_getTodo host todoId (update_todo content) uid') s = p
        /\ respond (behind_getTodo host todoId delete_todo uid') s = d).
Proof.
  split; [|split; [|split]].
  - split; [unfold respond, list_todos, try_catch, bind, Todo_find, modify,
              get, ret; simpl; by destruct (map_to_list _)|].
    exists (map_to_list (filter (owned_by uid) (todos s))). split.
    + apply Forall_forall. intros [i t] Hit.
      apply elem_of_map_to_list in Hit.
      by apply map_lookup_filter_Some in Hit as [_ ?].
    + unfold respond, list_todos, try_catch, bind, Todo_find, modify, get, ret.
      simpl. destruct (map_to_list _); simpl; [by right|by left].
  - unfold respond, behind_getTodo, bind.
    destruct (decide (todoId = "")) as [->|Hne].
    { unfold getTodo. simpl. by left. }
    rewrite (getTodo_run _ _ Hne).
    destruct (castObjectId host todoId) as [oid|]; [|by left].
    destruct (todos s !! oid) as [t|] eqn:Ht; simpl; [|by left].
    unfold update_todo. destruct (falsy content); simpl; [by left|].
    right. exists oid, t. split; [done|]. split; [done|].
    unfold try_catch, bind, Todo_updateMany, modify, ret. simpl.
    by apply alter_present.
  - unfold respond, behind_getTodo, bind.
    destruct (decide (todoId = "")) as [->|Hne].
    { unfold getTodo. simpl. by left. }
    rewrite (getTodo_run _ _ Hne).
    destruct (castObjectId host todoId) as [oid|]; [|by left].
    destruct (todos s !! oid) as [t|] eqn:Ht; simpl; [|by left].
    right. by exists oid, t.
  - done.
Qed.

End RouterProperties.

(** ** The routers on the concrete platform *)

Lemma world_emails_unique : unique_emails (user_infos world).
Proof.
  intros i j u v Hi Hj _. simpl in Hi, Hj.
  apply lookup_singleton_Some in Hi as [<- _].
  by apply lookup_singleton_Some in Hj as [<- _].
Qed.

Example login_alice :
  (respond (login demo 100 (LoginRequest.mk (Some "a@b.com") (Some "p1"))) world).1
  = mkResponse 200 (JAccessToken alice_token) (Some ("user", alice_token)).
Proof. vm_compute. reflexivity. Qed.

Example alice_token_verifies : verifyToken demo 350 (Some alice_token) = inr alice.
Proof. vm_compute. reflexivity. Qed.

Example alice_token_expires :
  verifyToken demo 700 (Some alice_token) = inl (reply 401 (JError "Unauthorized")).
Proof. vm_compute. reflexivity. Qed.

Example create_ignores_owner_in_body :
  (respond (create_todo demo "2023-07-30 09:00:00.000" (OID "64c4f0a91b06f5692d59cb03")
              (TodoRequest.mk None (Some "call home") (Some "1999-01-01")
                 (Some (hex alice)))
              bob) world).1
  = reply 201
      (JTodo (OID "64c4f0a91b06f5692d59cb03",
              Todo.mk (Some "call home") (Some "2023-07-30 09:00:00.000") (Some bob))).
Proof. vm_compute. reflexivity. Qed.

Example getTodo_upper_case_hex :
  (getTodo demo "64C4F0A91B06F5692D59CB01" world).1 = Returned (inr (milk, milk_todo)).
Proof. vm_compute. reflexivity. Qed.

(** C1 does not hold as stated: Bob, who does not own the todo [milk],
    rewrites it and deletes it. *)
Lemma non_owner_updates_and_deletes :
  todos world !! milk = Some milk_todo
  /\ Todo.userId milk_todo = Some alice
  /\ bob <> alice
  /\ (let p := respond (behind_getTodo demo (hex milk)
                          (update_todo (Some "mine now")) bob) world in
      p.1 = reply 200 (JMessage "OK")
      /\ todos p.2 !! milk
         = Some (Todo.mk (Some "mine now") (Some "2023-07-29 20:45:00.000")
                   (Some alice))
      /\ todos p.2 !! milk <> todos world !! milk)
  /\ (let d := respond (behind_getTodo demo (hex milk) delete_todo bob) world in
      d.1 = reply 200 (JMessage "OK")
      /\ todos d.2 !! milk = None).
Proof. vm_compute. repeat split; discriminate. Qed.

(** C2 does not hold as stated: for the registered Alice, the empty
    password is a wrong password, and the answer is 400, not 401. *)
Lemma login_with_empty_password_is_400 :
  user_infos world !! alice = Some alice_info
  /\ UserInfo.email alice_info = "a@b.com"
  /\ UserInfo.password alice_info <> createHashedPassword demo ""
  /\ (let r := respond (login demo 100
                          (LoginRequest.mk (Some "a@b.com") (Some ""))) world in
      r.1 = reply 400 (JError "Bad request") /\ status r.1 <> 401
      /\ oplog r.2 = oplog world).
Proof. vm_compute. repeat split; discriminate. Qed.

(** C4 does not hold as stated: after Alice deleted her account, a
    list request with her token, a second later, is answered 404 and
    not 401. *)
Lemma list_after_delete_account_is_404 :
  verifyToken demo 100 (Some alice_token) = inr alice
  /\ (let gone := (respond (DELETE_private_delete_account demo 100
                              (Some alice_token)) world).2 in
      user_infos gone !! alice = None
      /\ (let r := respond (GET_private demo 101 (Some alice_token)) gone in
          r.1 = reply 404 (JError "Not Found") /\ status r.1 <> 401)).
Proof. vm_compute. repeat split; discriminate. Qed.

(** The theorems with hypotheses, applied. *)

Lemma login_credentials_witness :
  unique_emails (user_infos world)
  /\ (exists tok,
        (respond (login demo 100 (LoginRequest.mk (Some "a@b.com") (Some "p1")))
           world).1
        = mkResponse 200 (JAccessToken tok) (Some ("user", tok))
        /\ Jwt.sub tok = Some alice)
  /\ (respond (login demo 100 (LoginRequest.mk (Some "a@b.com") (Some "p0")))
        world).1
     = reply 401 (JError "Invalid credentials")
  /\ (respond (login demo 100 (LoginRequest.mk (Some "x@y.org") (Some "p0")))
        world).1
     = reply 401 (JError "Invalid credentials")
  /\ respond (login demo 100 (LoginRequest.mk (Some "a@b.com") (Some "")))
       world
     = (reply 400 (JError "Bad request"), world)
  /\ respond (login demo 100 (LoginRequest.mk None (Some "p1"))) world
     = (reply 400 (JError "Bad request"), world).
Proof.
  split; [exact world_emails_unique|]. split.
  { destruct (login_credentials demo 100
                (LoginRequest.mk (Some "a@b.com") (Some "p1")) world)
      as [H _].
    destruct (H world_emails_unique alice alice_info eq_refl eq_refl)
      as (tok & Hr & _ & Hsub & _).
    exists tok. split; assumption. }
  split.
  { destruct (login_credentials demo 100
                (LoginRequest.mk (Some "a@b.com") (Some "p0")) world)
      as [H _].
    exact (H world_emails_unique alice alice_info eq_refl eq_refl). }
  split.
  { destruct (login_credentials demo 100
                (LoginRequest.mk (Some "x@y.org") (Some "p0")) world)
      as (_ & H & _).
    apply H. intros i u Hi. simpl in Hi.
    by apply lookup_singleton_Some in Hi as [_ <-]. }
  split.
  { exact (login_credentials demo 100
             (LoginRequest.mk (Some "a@b.com") (Some "")) world). }
  exact (login_credentials demo 100 (LoginRequest.mk None (Some "p1")) world).
Defined.

Lemma delete_account_cascade_witness :
  verifyToken demo 100 (Some alice_token) = inr alice
  /\ (101 < Jwt.exp alice_token)%Z
  /\ respond (GET_private demo 101 (Some alice_token))
       (respond (DELETE_private_delete_account demo 100 (Some alice_token))
          world).2
     = (reply 404 (JError "Not Found"),
        logged (Todo_find_op alice)
          (respond (DELETE_private_delete_account demo 100 (Some alice_token))
             world).2).
Proof.
  assert (Hv : verifyToken demo 100 (Some alice_token) = inr alice)
    by (vm_compute; reflexivity).
  assert (Hlt : (101 < Jwt.exp alice_token)%Z) by (vm_compute; reflexivity).
  split; [exact Hv|]. split; [exact Hlt|].
  apply (delete_account_cascade demo 100 101 alice_token alice world Hv Hlt).
Defined.

Lemma sign_up_duplicate_rejected_witness :
  user_infos world !! alice = Some alice_info
  /\ (let r := respond (sign_up demo "2023-07-30 09:00:00.000" bob
                          (SignUpRequest.mk (Some "a@b.com") (Some "p2")
                             (Some "v"))) world in
      status r.1 = 400
      /\ user_infos r.2 = user_infos world
      /\ todos r.2 = todos world
      /\ user_infos r.2 !! alice = Some alice_info).
Proof.
  assert (H : user_infos world !! alice = Some alice_info)
    by (vm_compute; reflexivity).
  split; [exact H|].
  exact (sign_up_duplicate_rejected demo "2023-07-30 09:00:00.000" bob
           (SignUpRequest.mk (Some "a@b.com") (Some "p2") (Some "v"))
           world alice alice_info H eq_refl).
Defined.

Lemma update_todo_content_only_witness :
  hex milk <> ""
  /\ castObjectId demo (hex milk) = Some milk
  /\ todos world !! milk = Some milk_todo
  /\ (let r := respond (behind_getTodo demo (hex milk)
                          (update_todo (Some "buy oat milk")) alice) world in
      r.1 = reply 200 (JMessage "OK")
      /\ todos r.2 !! milk
         = Some (Todo.mk (Some "buy oat milk") (Todo.createdTime milk_todo)
                   (Todo.userId milk_todo)))
  /\ (let r := respond (behind_getTodo demo (hex milk) (update_todo (Some ""))
                          alice) world in
      r.1 = reply 400 (JError "Bad Request") /\ todos r.2 = todos world).
Proof.
  assert (Hne : hex milk <> "") by discriminate.
  assert (Hc : castObjectId demo (hex milk) = Some milk)
    by (vm_compute; reflexivity).
  assert (Ht : todos world !! milk = Some milk_todo)
    by (vm_compute; reflexivity).
  split; [exact Hne|]. split; [exact Hc|]. split; [exact Ht|]. split.
  - destruct (update_todo_content_only demo (hex milk) alice milk milk_todo
                (Some "buy oat milk") world Hne Hc Ht) as (_ & Hr & _ & Hl & _).
    split; [exact Hr|exact Hl].
  - destruct (update_todo_content_only demo (hex milk) alice milk milk_todo
                (Some "") world Hne Hc Ht) as (_ & Hr & Hs).
    split; [exact Hr|exact Hs].
Defined.

Lemma getTodo_gate_and_delete_witness :
  "not-an-id" <> ""
  /\ respond (behind_getTodo demo "not-an-id" delete_todo alice) world
     = (reply 415 (JError "Unsupported Media Type"), world)
  /\ hex bob <> ""
  /\ respond (behind_getTodo demo (hex bob) delete_todo alice) world
     = (reply 404 (JError "Not Found"), logged (Todo_findById_op bob) world)
  /\ hex milk <> ""
  /\ (let r := respond (behind_getTodo demo (hex milk) delete_todo alice) world in
      r.1 = reply 200 (JMessage "OK")
      /\ todos r.2 = delete milk (todos world)
      /\ todos r.2 !! milk = None
      /\ todos r.2 !! eggs = Some eggs_todo).
Proof.
  assert (H1 : "not-an-id" <> "") by discriminate.
  assert (H2 : hex bob <> "") by discriminate.
  assert (H3 : hex milk <> "") by discriminate.
  split; [exact H1|]. split.
  { exact (proj2 (getTodo_gate_and_delete demo "not-an-id" alice delete_todo
                    world H1)). }
  split; [exact H2|]. split.
  { exact (getTodo_gate_and_delete demo (hex bob) alice delete_todo world H2). }
  split; [exact H3|].
  destruct (proj2 (proj2 (getTodo_gate_and_delete demo (hex milk) alice
                            delete_todo world H3)))
    as (Hr & Ht & Hgone & Hkept & _).
  split; [exact Hr|]. split; [exact Ht|]. split; [exact Hgone|].
  rewrite (Hkept eggs) by discriminate. vm_compute. reflexivity.
Defined.


(** * Further properties of the routers *)

Lemma falsy_false (v : option string) :
  falsy v = false <-> exists c, v = Some c /\ c <> "".
Proof.
  destruct v as [c|]; simpl.
  - rewrite bool_decide_eq_false. split; [by exists c|].
    by intros (c' & [= ->] & Hc).
  - split; [done|]. by intros (c & Hc & _).
Qed.

Lemma falsy_false_str (v : option string) :
  falsy v = false -> v = Some (str v) /\ str v <> "".
Proof. intros H. by apply falsy_false in H as (c & -> & Hc). Qed.

(** An input the e-mail pattern accepts is present and non-empty. *)
Lemma regex_test_truthy (v : option string) :
  regex_test v = true -> falsy v = false.
Proof.
  by destruct v as [[|c w]|].
Qed.

Section RouterRuns.

Variable host : Platform.

(** The handlers in closed form. *)

Lemma search_run (email : option string) (s : Server) :
  respond (search email) s =
  if regex_test email then
    (match List.find (UserInfo_matches (js_to_string email) None)
             (map_to_list (user_infos s)) with
     | Some _ => reply 409 (JError "User with this email already exists")
     | None => reply 200 (JMessage "OK")
     end,
     logged (UserInfo_findOne_op (js_to_string email) None) s)
  else (reply 400 (JError "Bad request"), s).
Proof.
  unfold respond, search. destruct (regex_test email); simpl; [|done].
  unfold try_catch, UserInfo_findOne, bind, modify, get, ret. simpl.
  by destruct (List.find _ _).
Qed.

Lemma login_run (clock : Z) (body : LoginRequest.t) (s : Server) :
  let e := str (LoginRequest.email body) in
  let h := createHashedPassword host (str (LoginRequest.password body)) in
  respond (login host clock body) s =
  if falsy (LoginRequest.email body) || falsy (LoginRequest.password body)
  then (reply 400 (JError "Bad request"), s)
  else
    let s1 := logged (UserInfo_findOne_op e (Some h)) s in
    match List.find (UserInfo_matches e (Some h)) (map_to_list (user_infos s)) with
    | Some u =>
        let tok := Jwt.sign (JWT_ISSUER host) (JWT_AUDIENCE host) (Some u.1)
                     (JWT_TOKEN_SECRET host) (JWT_ACCESS_TOKEN_EXPIRES_IN host)
                     clock in
        (mkResponse 200 (JAccessToken tok) (Some ("user", tok)),
         with_options_sub u.1 s1)
    | None => (reply 401 (JError "Invalid credentials"), s1)
    end.
Proof.
  intros e h. unfold respond, login.
  destruct (falsy _ || falsy _); simpl; [done|].
  unfold try_catch, UserInfo_findOne, bind, modify, get, ret. simpl.
  fold e h. by destruct (List.find _ _).
Qed.

Lemma sign_up_run (now : string) (fresh : ObjectId) (body : SignUpRequest.t)
    (s : Server) :
  let e := str (SignUpRequest.email body) in
  let user :=
    UserInfo.mk e
      (createHashedPassword host (str (SignUpRequest.password body)))
      (str (SignUpRequest.username body)) now in
  respond (sign_up host now fresh body) s =
  if falsy (SignUpRequest.email body) || falsy (SignUpRequest.password body)
     || falsy (SignUpRequest.username body)
  then (reply 400 (JError "Bad request"), s)
  else
    let s1 := logged (UserInfo_findOne_op e None) s in
    match List.find (UserInfo_matches e None) (map_to_list (user_infos s)) with
    | Some _ =>
        (reply 400 (JError "Bad request or user with this email already exists"),
         s1)
    | None =>
        let s2 := logged (UserInfo_save_op fresh) s1 in
        match user_infos s !! fresh with
        | Some _ =>
            (reply 500
               (JError "E11000 duplicate key error collection: user_infos index: _id_"),
             s2)
        | None =>
            (reply 201 (JUser (fresh, user)),
             with_user_infos (insert fresh user) s2)
        end
    end.
Proof.
  intros e user. unfold respond, sign_up.
  destruct (falsy _ || falsy _ || falsy _); simpl; [done|].
  unfold try_catch, UserInfo_findOne, UserInfo_save, bind, modify, get, ret,
    throw. simpl. fold e.
  destruct (List.find _ _); simpl; [done|].
  by destruct (user_infos s !! fresh).
Qed.

Lemma delete_account_run (userId : ObjectId) (s : Server) :
  respond (delete_account userId) s =
  (reply 200 (JMessage "Account deleted successfully"),
   with_todos (filter (fun d => ~ owned_by userId d))
     (logged (Todo_deleteMany_op userId)
        (with_user_infos (delete userId)
           (logged (UserInfo_findByIdAndDelete_op userId) s)))).
Proof. reflexivity. Qed.

Lemma list_todos_run (userId : ObjectId) (s : Server) :
  respond (list_todos userId) s =
  (match map_to_list (filter (owned_by userId) (todos s)) with
   | [] => reply 404 (JError "Not Found")
   | docs => reply 200 (JTodos docs)
   end,
   logged (Todo_find_op userId) s).
Proof.
  unfold respond, list_todos, try_catch, Todo_find, bind, modify, get, ret.
  simpl. by destruct (map_to_list _).
Qed.

Lemma create_todo_run (now : string) (fresh : ObjectId) (body : TodoRequest.t)
    (uid : ObjectId) (s : Server) :
  let doc := Todo.mk (TodoRequest.content body) (Some now) (Some uid) in
  respond (create_todo host now fresh body uid) s =
  if falsy (TodoRequest.content body) then (reply 400 (JError "Bad Request"), s)
  else
    match (new_Todo host fresh body).1 with
    | None =>
        (reply 500 (JError "todos validation failed: _id: Cast to ObjectId failed"),
         s)
    | Some id =>
        let s1 := logged (Todo_save_op id) s in
        match todos s !! id with
        | Some _ =>
            (reply 500
               (JError "E11000 duplicate key error collection: todos index: _id_"),
             s1)
        | None => (reply 201 (JTodo (id, doc)), with_todos (insert id doc) s1)
        end
    end.
Proof.
  intros doc. unfold respond, create_todo.
  destruct (falsy (TodoRequest.content body)); simpl; [done|].
  unfold try_catch, Todo_save. simpl.
  destruct (match TodoRequest._id body with
            | Some i => castObjectId host i
            | None => Some fresh
            end) as [id|]; simpl; [|done].
  unfold bind, modify, get, ret, throw. simpl.
  by destruct (todos s !! id).
Qed.

(** A by-id route whose path identifier is non-empty and casts. *)
Lemma update_run (todoId : string) (uid oid : ObjectId)
    (content : option string) (s : Server) :
  todoId <> "" -> castObjectId host todoId = Some oid ->
  respond (behind_getTodo host todoId (update_todo content) uid) s =
  let s1 := logged (Todo_findById_op oid) s in
  match todos s !! oid with
  | None => (reply 404 (JError "Not Found"), s1)
  | Some t =>
      if falsy content then (reply 400 (JError "Bad Request"), s1)
      else (reply 200 (JMessage "OK"),
            with_todos (insert oid (Todo.set_content (str content) t))
              (logged (Todo_updateMany_op oid (str content)) s1))
  end.
Proof.
  intros Hne Hc. unfold respond, behind_getTodo, bind.
  rewrite (getTodo_run _ _ _ Hne), Hc.
  destruct (todos s !! oid) as [t|] eqn:Ht; simpl; [|done].
  unfold update_todo. destruct (falsy content); simpl; [done|].
  unfold try_catch, Todo_updateMany, bind, modify, ret, with_todos. simpl.
  by rewrite (alter_present _ _ _ _ Ht).
Qed.

Lemma delete_run (todoId : string) (uid oid : ObjectId) (s : Server) :
  todoId <> "" -> castObjectId host todoId = Some oid ->
  respond (behind_getTodo host todoId delete_todo uid) s =
  let s1 := logged (Todo_findById_op oid) s in
  match todos s !! oid with
  | None => (reply 404 (JError "Not Found"), s1)
  | Some t =>
      (reply 200 (JMessage "OK"),
       with_todos (delete oid) (logged (Todo_deleteOne_op oid) s1))
  end.
Proof.
  intros Hne Hc. unfold respond, behind_getTodo, bind.
  rewrite (getTodo_run _ _ _ Hne), Hc.
  by destruct (todos s !! oid) as [t|] eqn:Ht.
Qed.

End RouterRuns.

(** ** The e-mail pattern and the search route *)

Lemma occurrences_app (a : ascii) (u v : list ascii) :
  occurrences a (u ++ v) = occurrences a u + occurrences a v.
Proof. unfold occurrences. by rewrite List.filter_app, length_app. Qed.

Lemma occurrences_outside_class (p : ascii -> bool) (a : ascii) (w : list ascii) :
  p a = false -> forallb p w = true -> occurrences a w = 0.
Proof.
  intros Ha. unfold occurrences. induction w as [|c w IH]; simpl; [done|].
  intros H. apply andb_true_iff in H as [Hc Hw].
  destruct (Ascii.eqb a c) eqn:E; [|auto].
  apply Ascii.eqb_eq in E. congruence.
Qed.

(** X1. The search route answers 400 exactly for the inputs that are
    not of the form local part, [@], domain, dot, two or more letters
    (over the character classes of the pattern). *)
Theorem search_rejects_exactly_malformed (s : string) (st : Server) :
  (respond (search (Some s)) st).1 = reply 400 (JError "Bad request") <->
  ~ exists l d t : list ascii,
      list_ascii_of_string s = (l ++ "@"%char :: d ++ "."%char :: t)%list
      /\ l <> [] /\ forallb local_char l = true
      /\ d <> [] /\ forallb domain_char d = true
      /\ 2 <= length t /\ forallb letter t = true.
Proof.
  rewrite search_run, <- regex_test_shape.
  destruct (regex_test (Some s)); simpl.
  - split; [|done]. by destruct (List.find _ _).
  - split; [discriminate|done].
Qed.

(** X2. An address the pattern accepts holds exactly one [@] and is at
    least six characters long. *)
Theorem regex_test_single_at (s : string) :
  regex_test (Some s) = true ->
  occurrences "@" (list_ascii_of_string s) = 1
  /\ 6 <= length (list_ascii_of_string s).
Proof.
  intros H. apply regex_test_shape in H
    as (l & d & t & -> & Hl & Hlc & Hd & Hdc & Ht & Htc).
  split.
  - rewrite occurrences_app.
    rewrite (occurrences_outside_class local_char) by done.
    change ("@"%char :: d ++ "."%char :: t)%list
      with (["@"%char] ++ d ++ ["."%char] ++ t)%list.
    rewrite !occurrences_app.
    rewrite (occurrences_outside_class domain_char "@" d) by done.
    by rewrite (occurrences_outside_class letter "@" t) by done.
  - rewrite length_app. simpl. rewrite length_app. simpl.
    destruct l; [done|]. destruct d; [done|]. simpl. lia.
Qed.

Section MoreRouterProperties.

Variable host : Platform.

(** ** Login *)

(** X3. For a login request whose e-mail and password are each a
    string or absent, on a store that answers its query, login answers
    200, 400 or 401 and changes neither collection. When it answers 200 the token
    of the body is the cookie, and its subject is the identifier of a
    stored user whose e-mail is the one requested and whose stored
    password is the hash of the one requested; [options.sub] then
    holds that identifier. When it refuses, no cookie is set and
    [options.sub] is as before. *)
Theorem login_token_names_matching_user (clock : Z) (body : LoginRequest.t)
    (s : Server) :
  let r := respond (login host clock body) s in
  user_infos r.2 = user_infos s
  /\ todos r.2 = todos s
  /\ match json r.1 with
     | JAccessToken tok =>
         status r.1 = 200
         /\ cookie r.1 = Some ("user", tok)
         /\ Jwt.key tok = JWT_TOKEN_SECRET host
         /\ exists i u,
              Jwt.sub tok = Some i
              /\ user_infos s !! i = Some u
              /\ LoginRequest.email body = Some (UserInfo.email u)
              /\ UserInfo.password u
                 = createHashedPassword host (str (LoginRequest.password body))
              /\ options_sub r.2 = Some i
     | JError _ =>
         (status r.1 = 400 \/ status r.1 = 401)
         /\ cookie r.1 = None
         /\ options_sub r.2 = options_sub s
     | _ => False
     end.
Proof.
  intros r. subst r. rewrite login_run.
  destruct (falsy (LoginRequest.email body)) eqn:He; simpl.
  { split; [done|]. split; [done|]. split; [by left|done]. }
  destruct (falsy (LoginRequest.password body)) eqn:Hp; simpl.
  { split; [done|]. split; [done|]. split; [by left|done]. }
  destruct (List.find _ _) as [[i u]|] eqn:E; simpl.
  - apply find_map_to_list_Some in E as [Hiu Hm]. simpl in Hiu.
    apply UserInfo_matches_credentials in Hm as [Hue Hup].
    apply falsy_false_str in He as [He _].
    split; [done|]. split; [done|]. split; [done|]. split; [done|].
    split; [done|]. exists i, u. rewrite He, Hue. by rewrite <- He.
  - split; [done|]. split; [done|]. split; [by right|done].
Qed.

(** X4. The answer of a login does not depend on the subject a
    previous login left in the shared [options] object. *)
Theorem login_ignores_stale_subject (clock : Z) (body : LoginRequest.t)
    (users : gmap ObjectId UserInfo.t) (tds : gmap ObjectId Todo.t)
    (log : list StoreOp) (stale stale' : option ObjectId) :
  let r := respond (login host clock body) (mkServer users tds stale log) in
  let r' := respond (login host clock body) (mkServer users tds stale' log) in
  r.1 = r'.1
  /\ (status r.1 = 200 -> options_sub r.2 = options_sub r'.2).
Proof.
  intros r r'. subst r r'. rewrite !login_run. simpl.
  destruct (falsy _ || falsy _); simpl; [done|].
  by destruct (List.find _ _).
Qed.

(** X5. Login and sign-up turn a request with an empty or absent
    required field away with 400 "Bad request" before the store is
    consulted, the server staying as it was. Any other request costs
    login exactly one [findOne]. It costs sign-up one [findOne] and
    nothing more when a stored user has the e-mail (answer 400, users
    unchanged), and one [findOne] followed by one [save] when none
    has. *)
Theorem missing_fields_rejected_before_lookup (clock : Z) (now : string)
    (fresh : ObjectId) (lb : LoginRequest.t) (sb : SignUpRequest.t)
    (s : Server) :
  let l := respond (login host clock lb) s in
  let u := respond (sign_up host now fresh sb) s in
  (if falsy (LoginRequest.email lb) || falsy (LoginRequest.password lb)
   then l = (reply 400 (JError "Bad request"), s)
   else oplog l.2
        = (oplog s
           ++ [UserInfo_findOne_op (str (LoginRequest.email lb))
                 (Some (createHashedPassword host
                          (str (LoginRequest.password lb))))])%list)
  /\ (if falsy (SignUpRequest.email sb) || falsy (SignUpRequest.password sb)
         || falsy (SignUpRequest.username sb)
      then u = (reply 400 (JError "Bad request"), s)
      else
        let e := str (SignUpRequest.email sb) in
        let q := UserInfo_findOne_op e None in
        ((exists i v, user_infos s !! i = Some v /\ UserInfo.email v = e)
         /\ status u.1 = 400
         /\ oplog u.2 = (oplog s ++ [q])%list
         /\ user_infos u.2 = user_infos s)
        \/ ((forall i v, user_infos s !! i = Some v -> UserInfo.email v <> e)
            /\ (status u.1 = 201 \/ status u.1 = 500)
            /\ oplog u.2 = (oplog s ++ [q; UserInfo_save_op fresh])%list)).
Proof.
  intros l u. subst l u. rewrite login_run, sign_up_run. split.
  - destruct (falsy _ || falsy _); simpl; [done|].
    by destruct (List.find _ _).
  - destruct (falsy _ || falsy _ || falsy _); simpl; [done|].
    destruct (List.find _ _) eqn:E; simpl.
    + left. split; [|done]. apply findOne_email_Some. rewrite E. by eexists.
    + right. split; [by apply findOne_email_None|].
      destruct (user_infos s !! fresh); simpl;
        (split; [|by rewrite <- app_assoc]); [by right|by left].
Qed.

(** ** Sign-up and what follows it *)

Lemma find_map_to_list_unique {A} (P : ObjectId * A -> bool)
    (m : gmap ObjectId A) i x :
  m !! i = Some x -> P (i, x) = true ->
  (forall j y, m !! j = Some y -> P (j, y) = true -> j = i) ->
  List.find P (map_to_list m) = Some (i, x).
Proof.
  intros Hix HP Huniq. destruct (List.find P (map_to_list m)) as [[j y]|] eqn:E.
  - apply find_map_to_list_Some in E as [Hjy HPj]. simpl in Hjy.
    assert (j = i) as -> by eauto. congruence.
  - pose proof (proj1 (find_map_to_list_None _ _) E _ _ Hix). congruence.
Qed.

(** When sign-up answers 201 every required field was present, no
    stored user had the e-mail and the identifier was free. *)
Lemma sign_up_201 (now : string) (fresh : ObjectId) (body : SignUpRequest.t)
    (s : Server) :
  status (respond (sign_up host now fresh body) s).1 = 201 ->
  falsy (SignUpRequest.email body) = false
  /\ falsy (SignUpRequest.password body) = false
  /\ falsy (SignUpRequest.username body) = false
  /\ (forall i u, user_infos s !! i = Some u ->
                  UserInfo.email u <> str (SignUpRequest.email body))
  /\ user_infos s !! fresh = None.
Proof.
  rewrite sign_up_run.
  destruct (falsy (SignUpRequest.email body)); simpl; [done|].
  destruct (falsy (SignUpRequest.password body)); simpl; [done|].
  destruct (falsy (SignUpRequest.username body)); simpl; [done|].
  destruct (List.find _ _) eqn:E; simpl; [done|].
  destruct (user_infos s !! fresh); simpl; [done|]. intros _.
  split; [done|]. split; [done|]. split; [done|]. split; [|done].
  by apply findOne_email_None.
Qed.

(** X6. Sign-up with all three fields non-empty, an e-mail no stored
    user has and a free identifier answers 201 with the new record,
    which holds the e-mail and name as sent, the hash of the password
    rather than the password, and the server's date; it is stored
    under the new identifier and nothing else changes. The e-mail
    pattern of the search route is not applied. *)
Theorem sign_up_creates_user (now : string) (fresh : ObjectId)
    (body : SignUpRequest.t) (s : Server) :
  falsy (SignUpRequest.email body) = false ->
  falsy (SignUpRequest.password body) = false ->
  falsy (SignUpRequest.username body) = false ->
  (forall i u, user_infos s !! i = Some u ->
               UserInfo.email u <> str (SignUpRequest.email body)) ->
  user_infos s !! fresh = None ->
  let user :=
    UserInfo.mk (str (SignUpRequest.email body))
      (createHashedPassword host (str (SignUpRequest.password body)))
      (str (SignUpRequest.username body)) now in
  let r := respond (sign_up host now fresh body) s in
  r.1 = reply 201 (JUser (fresh, user))
  /\ user_infos r.2 = <[fresh := user]> (user_infos s)
  /\ user_infos r.2 !! fresh = Some user
  /\ (forall j, j <> fresh -> user_infos r.2 !! j = user_infos s !! j)
  /\ todos r.2 = todos s.
Proof.
  intros He Hp Hu Hno Hfree user r. subst r. rewrite sign_up_run.
  rewrite He, Hp, Hu. simpl.
  rewrite (proj2 (findOne_email_None _ _) Hno), Hfree. simpl.
  split; [done|]. split; [done|]. split; [apply lookup_insert_eq|].
  split; [|done]. intros j Hj. by apply lookup_insert_ne.
Qed.

(** X7. Search and sign-up agree on availability. For an e-mail the
    pattern accepts, sent to sign-up with a non-empty password and name
    and a free identifier: search answers 200 exactly when sign-up
    answers 201, and 409 exactly when sign-up answers 400. *)
Theorem search_agrees_with_sign_up (now : string) (fresh : ObjectId)
    (email password username : option string) (s : Server) :
  regex_test email = true ->
  falsy password = false ->
  falsy username = false ->
  user_infos s !! fresh = None ->
  let q := respond (search email) s in
  let u := respond (sign_up host now fresh
                      (SignUpRequest.mk email password username)) s in
  (status q.1 = 200 <-> status u.1 = 201)
  /\ (status q.1 = 409 <-> status u.1 = 400).
Proof.
  intros Hre Hp Hu Hfree q u. subst q u. rewrite search_run, sign_up_run.
  pose proof (regex_test_truthy _ Hre) as He. simpl.
  rewrite Hre, He, Hp, Hu, Hfree. simpl.
  apply falsy_false in He as (c & -> & _). simpl.
  by destruct (List.find _ _).
Qed.

(** X8. Round trip: once sign-up has answered 201, a login with the
    same e-mail and password answers 200 with a token whose subject is
    the identifier the new record was stored under. *)
Theorem sign_up_then_login (now : string) (fresh : ObjectId) (clock : Z)
    (body : SignUpRequest.t) (s : Server) :
  status (respond (sign_up host now fresh body) s).1 = 201 ->
  let s1 := (respond (sign_up host now fresh body) s).2 in
  let r := respond (login host clock
                      (LoginRequest.mk (SignUpRequest.email body)
                         (SignUpRequest.password body))) s1 in
  exists tok,
    r.1 = mkResponse 200 (JAccessToken tok) (Some ("user", tok))
    /\ Jwt.sub tok = Some fresh
    /\ Jwt.key tok = JWT_TOKEN_SECRET host.
Proof.
  intros H201 s1 r. subst s1 r.
  destruct (sign_up_201 _ _ _ _ H201) as (He & Hp & Hu & Hno & Hfree).
  rewrite sign_up_run, He, Hp, Hu. simpl.
  rewrite (proj2 (findOne_email_None _ _) Hno), Hfree. simpl.
  rewrite login_run. simpl. rewrite He, Hp. simpl.
  erewrite find_map_to_list_unique.
  - eexists. split; [reflexivity|]. by split.
  - apply lookup_insert_eq.
  - by apply UserInfo_matches_credentials.
  - intros j y Hjy Hm. destruct (decide (j = fresh)) as [|Hne]; [done|].
    rewrite lookup_insert_ne in Hjy by done.
    apply UserInfo_matches_credentials in Hm as [Hm _].
    destruct (Hno _ _ Hjy Hm).
Qed.

(** X9. After the account of a user is deleted, a login with that
    user's e-mail is refused whatever the password, provided e-mails
    were unique: 400 when a field is empty, 401 otherwise. *)
Theorem delete_account_then_login (clock : Z) (uid : ObjectId)
    (u : UserInfo.t) (body : LoginRequest.t) (s : Server) :
  unique_emails (user_infos s) ->
  user_infos s !! uid = Some u ->
  LoginRequest.email body = Some (UserInfo.email u) ->
  let r := respond (login host clock body) (respond (delete_account uid) s).2 in
  r.1 = (if falsy (LoginRequest.email body) || falsy (LoginRequest.password body)
         then reply 400 (JError "Bad request")
         else reply 401 (JError "Invalid credentials"))
  /\ status r.1 <> 200.
Proof.
  intros Huniq Hu He r. subst r. rewrite delete_account_run, login_run.
  destruct (falsy _ || falsy _); simpl; [done|].
  rewrite findOne_credentials_None; [done|].
  intros i v Hiv Hve _. apply lookup_delete_Some in Hiv as [Hne Hiv].
  rewrite He in Hve. simpl in Hve.
  by destruct Hne, (Huniq _ _ _ _ Hu Hiv (eq_sym Hve)).
Qed.

(** ** Invariants of the user collection *)

(** X10. Each route of the auth router, run on its own from a
    store with unique e-mails (no other request between its store
    operations), leaves the e-mails unique. *)
Theorem auth_routes_keep_emails_unique (clock : Z) (now : string)
    (fresh uid : ObjectId) (sb : SignUpRequest.t) (lb : LoginRequest.t)
    (email : option string) (s : Server) :
  unique_emails (user_infos s) ->
  unique_emails (user_infos (respond (sign_up host now fresh sb) s).2)
  /\ unique_emails (user_infos (respond (login host clock lb) s).2)
  /\ unique_emails (user_infos (respond (search email) s).2)
  /\ unique_emails (user_infos (respond (delete_account uid) s).2).
Proof.
  intros Huniq. split; [by apply sign_up_keeps_emails_unique|].
  rewrite login_run, search_run, delete_account_run.
  split; [|split].
  - destruct (falsy _ || falsy _); simpl; [done|]. by destruct (List.find _ _).
  - by destruct (regex_test email).
  - simpl. intros i j v w Hi Hj.
    apply lookup_delete_Some in Hi as [_ Hi].
    apply lookup_delete_Some in Hj as [_ Hj]. eauto.
Qed.

(** X11. Every route of the auth router keeps the stored users free
    of empty e-mails and names. *)
Theorem auth_routes_keep_users_named (clock : Z) (now : string)
    (fresh uid : ObjectId) (sb : SignUpRequest.t) (lb : LoginRequest.t)
    (email : option string) (s : Server) :
  users_named (user_infos s) ->
  users_named (user_infos (respond (sign_up host now fresh sb) s).2)
  /\ users_named (user_infos (respond (login host clock lb) s).2)
  /\ users_named (user_infos (respond (search email) s).2)
  /\ users_named (user_infos (respond (delete_account uid) s).2).
Proof.
  intros Hn. rewrite sign_up_run, login_run, search_run, delete_account_run.
  split; [|split; [|split]].
  - destruct (falsy (SignUpRequest.email sb)) eqn:He; simpl; [done|].
    destruct (falsy (SignUpRequest.password sb)); simpl; [done|].
    destruct (falsy (SignUpRequest.username sb)) eqn:Hu; simpl; [done|].
    destruct (List.find _ _); simpl; [done|].
    destruct (user_infos s !! fresh); simpl; [done|].
    intros i v Hi. apply lookup_insert_Some in Hi as [[_ <-]|[_ Hi]]; [|eauto].
    simpl. split; by apply falsy_false_str.
  - destruct (falsy _ || falsy _); simpl; [done|]. by destruct (List.find _ _).
  - by destruct (regex_test email).
  - simpl. intros i v Hi. apply lookup_delete_Some in Hi as [_ Hi]. eauto.
Qed.

(** ** The todos router *)

(** A route behind [getTodo], for any path identifier. *)
Lemma behind_getTodo_cases (todoId : string) (uid : ObjectId)
    (handler : ObjectId * Todo.t -> M Response) (s : Server) :
  respond (behind_getTodo host todoId handler uid) s =
  if decide (todoId = "") then (reply 400 (JError "Bad Request"), s)
  else
    match castObjectId host todoId with
    | None => (reply 415 (JError "Unsupported Media Type"), s)
    | Some oid =>
        match todos s !! oid with
        | None => (reply 404 (JError "Not Found"), logged (Todo_findById_op oid) s)
        | Some t => respond (handler (oid, t)) (logged (Todo_findById_op oid) s)
        end
    end.
Proof.
  destruct (decide (todoId = "")) as [->|Hne]; [done|].
  unfold respond, behind_getTodo, bind. rewrite (getTodo_run _ _ _ Hne).
  destruct (castObjectId host todoId) as [oid|]; [|done].
  by destruct (todos s !! oid).
Qed.

Lemma update_todo_run (content : option string) (d : ObjectId * Todo.t)
    (s : Server) :
  respond (update_todo content d) s =
  if falsy content then (reply 400 (JError "Bad Request"), s)
  else (reply 200 (JMessage "OK"),
        with_todos (alter (Todo.set_content (str content)) d.1)
          (logged (Todo_updateMany_op d.1 (str content)) s)).
Proof. unfold respond, update_todo. by destruct (falsy content). Qed.

Lemma delete_todo_run (d : ObjectId * Todo.t) (s : Server) :
  respond (delete_todo d) s =
  (reply 200 (JMessage "OK"),
   with_todos (delete d.1) (logged (Todo_deleteOne_op d.1) s)).
Proof. reflexivity. Qed.

(** When create answers 201 the content was present and the
    identifier the document got was free. *)
Lemma create_todo_201 (now : string) (fresh : ObjectId) (body : TodoRequest.t)
    (uid : ObjectId) (s : Server) :
  status (respond (create_todo host now fresh body uid) s).1 = 201 ->
  falsy (TodoRequest.content body) = false
  /\ exists id, (new_Todo host fresh body).1 = Some id /\ todos s !! id = None.
Proof.
  rewrite create_todo_run.
  destruct (falsy (TodoRequest.content body)); simpl; [done|].
  destruct (match TodoRequest._id body with
            | Some i => castObjectId host i
            | None => Some fresh
            end) as [id|]; simpl; [|done].
  destruct (todos s !! id) eqn:E; simpl; [done|]. intros _. eauto.
Qed.

(** X12. The routes that touch the todos keep every stored todo
    complete: non-empty content, a timestamp and an owner. *)
Theorem todo_routes_keep_todos_complete (now : string) (fresh uid : ObjectId)
    (body : TodoRequest.t) (todoId : string) (content : option string)
    (s : Server) :
  todos_complete (todos s) ->
  todos_complete (todos (respond (create_todo host now fresh body uid) s).2)
  /\ todos_complete
       (todos (respond (behind_getTodo host todoId (update_todo content) uid) s).2)
  /\ todos_complete
       (todos (respond (behind_getTodo host todoId delete_todo uid) s).2)
  /\ todos_complete (todos (respond (list_todos uid) s).2)
  /\ todos_complete (todos (respond (delete_account uid) s).2).
Proof.
  intros Hc. split; [|split; [|split; [|split]]].
  - rewrite create_todo_run.
    destruct (falsy (TodoRequest.content body)) eqn:Hf; simpl; [done|].
    destruct (match TodoRequest._id body with
              | Some i => castObjectId host i
              | None => Some fresh
              end) as [id|]; simpl; [|done].
    destruct (todos s !! id); simpl; [done|].
    intros i t Hi. apply lookup_insert_Some in Hi as [[_ <-]|[_ Hi]]; [|eauto].
    split; [by apply falsy_false|]. by split; eexists.
  - rewrite behind_getTodo_cases. destruct (decide (todoId = "")); [done|].
    destruct (castObjectId host todoId) as [oid|]; [|done].
    destruct (todos s !! oid) as [t|] eqn:Ht; [|done].
    rewrite update_todo_run. destruct (falsy content) eqn:Hf; simpl; [done|].
    rewrite (alter_present _ _ _ _ Ht).
    intros i t' Hi. apply lookup_insert_Some in Hi as [[_ <-]|[_ Hi]]; [|eauto].
    destruct (Hc _ _ Ht) as (_ & Htime & Howner).
    split; [|done]. exists (str content).
    split; [done|]. by apply falsy_false_str.
  - rewrite behind_getTodo_cases. destruct (decide (todoId = "")); [done|].
    destruct (castObjectId host todoId) as [oid|]; [|done].
    destruct (todos s !! oid) as [t|] eqn:Ht; [|done].
    rewrite delete_todo_run. simpl.
    intros i t' Hi. apply lookup_delete_Some in Hi as [_ Hi]. eauto.
  - by rewrite list_todos_run.
  - rewrite delete_account_run. simpl.
    intros i t Hi. apply map_lookup_filter_Some in Hi as [Hi _]. eauto.
Qed.

(** X13. Once create has answered 201, the caller's list is answered
    200 and holds the new todo together with exactly the todos the
    caller owned before. *)
Theorem create_then_list (now : string) (fresh uid : ObjectId)
    (body : TodoRequest.t) (s : Server) :
  status (respond (create_todo host now fresh body uid) s).1 = 201 ->
  let doc := Todo.mk (TodoRequest.content body) (Some now) (Some uid) in
  let c := respond (create_todo host now fresh body uid) s in
  exists id docs,
    c.1 = reply 201 (JTodo (id, doc))
    /\ (respond (list_todos uid) c.2).1 = reply 200 (JTodos docs)
    /\ (id, doc) ∈ docs
    /\ forall j t, (j, t) ∈ docs <->
          (j = id /\ t = doc)
          \/ (todos s !! j = Some t /\ Todo.userId t = Some uid).
Proof.
  intros H201 doc c. subst c.
  destruct (create_todo_201 _ _ _ _ _ H201) as (Hf & id & Hid & Hfree).
  rewrite create_todo_run, Hf, Hid, Hfree. simpl. rewrite list_todos_run. simpl.
  fold doc.
  remember (map_to_list (filter (owned_by uid) (<[id:=doc]> (todos s))))
    as docs eqn:Hd.
  assert (Hin : forall j t, (j, t) ∈ docs <->
            (j = id /\ t = doc)
            \/ (todos s !! j = Some t /\ Todo.userId t = Some uid)).
  { intros j t. rewrite Hd.
    rewrite elem_of_map_to_list, map_lookup_filter_Some, lookup_insert_Some.
    unfold owned_by. simpl. split.
    - intros [[[-> <-]|[Hne Hj]] Ho]; [by left|by right].
    - intros [[-> ->]|[Hj Ho]]; [by split; [left|]|].
      split; [right|done]. split; [|done]. intros ->. congruence. }
  assert (Hnew : (id, doc) ∈ docs) by (apply Hin; by left).
  exists id, docs. split; [done|]. split; [|done].
  destruct docs; [|done]. by apply elem_of_nil in Hnew.
Qed.

(** X14. Round trip: deleting, by its identifier, the todo a create
    has just answered with is answered 200 and puts the todos back as
    they were before the create, whoever asks. *)
Theorem create_then_delete_restores (now : string) (fresh uid uid' id : ObjectId)
    (doc : Todo.t) (body : TodoRequest.t) (todoId : string) (s : Server) :
  (respond (create_todo host now fresh body uid) s).1 = reply 201 (JTodo (id, doc)) ->
  todoId <> "" ->
  castObjectId host todoId = Some id ->
  let s1 := (respond (create_todo host now fresh body uid) s).2 in
  let r := respond (behind_getTodo host todoId delete_todo uid') s1 in
  r.1 = reply 200 (JMessage "OK")
  /\ todos r.2 = todos s
  /\ user_infos r.2 = user_infos s.
Proof.
  intros Hc Hne Hcast s1 r. subst s1 r.
  assert (H201 : status (respond (create_todo host now fresh body uid) s).1 = 201)
    by by rewrite Hc.
  destruct (create_todo_201 _ _ _ _ _ H201) as (Hf & id' & Hid & Hfree).
  rewrite create_todo_run, Hf, Hid, Hfree in Hc |- *. simpl in Hc |- *.
  injection Hc as -> _.
  rewrite (delete_run _ _ _ _ _ Hne Hcast). simpl.
  rewrite lookup_insert_eq. simpl.
  split; [done|]. split; [|done].
  rewrite delete_insert_eq. by apply delete_id.
Qed.

(** X15. The last update wins: for a path identifier that casts and a
    non-empty content, updating after any earlier update of the same
    todo answers and leaves the todos exactly as that update alone
    would have. *)
Theorem update_last_write_wins (todoId : string) (uid uid' oid : ObjectId)
    (c1 c2 : option string) (s : Server) :
  todoId <> "" ->
  castObjectId host todoId = Some oid ->
  falsy c2 = false ->
  let a := respond (behind_getTodo host todoId (update_todo c1) uid) s in
  let b := respond (behind_getTodo host todoId (update_todo c2) uid') a.2 in
  let c := respond (behind_getTodo host todoId (update_todo c2) uid') s in
  b.1 = c.1 /\ todos b.2 = todos c.2.
Proof.
  intros Hne Hcast Hf a b c. subst a b c.
  rewrite !(update_run _ _ _ _ _ _ Hne Hcast), Hf. simpl.
  destruct (todos s !! oid) as [t|] eqn:Ht; simpl.
  - destruct (falsy c1); simpl.
    + by rewrite Ht.
    + rewrite lookup_insert_eq. simpl. by rewrite insert_insert_eq.
  - by rewrite Ht.
Qed.

(** X16. After a delete by identifier, whatever it answered, a further
    update or delete with the same path identifier changes no todo and
    is answered like a request for a todo that is not there: 404 when
    the identifier casts to an ObjectId, 415 when it does not, 400
    when it is empty; in no case 200. *)
Theorem delete_then_by_id_not_found (todoId : string) (uid uid' : ObjectId)
    (content : option string) (s : Server) :
  let d := respond (behind_getTodo host todoId delete_todo uid) s in
  let again := respond (behind_getTodo host todoId delete_todo uid') d.2 in
  let upd := respond (behind_getTodo host todoId (update_todo content) uid') d.2 in
  let refused :=
    if decide (todoId = "") then reply 400 (JError "Bad Request")
    else if ObjectId_isValid host todoId then reply 404 (JError "Not Found")
    else reply 415 (JError "Unsupported Media Type") in
  again.1 = refused
  /\ upd.1 = refused
  /\ status again.1 <> 200
  /\ status upd.1 <> 200
  /\ todos again.2 = todos d.2
  /\ todos upd.2 = todos d.2.
Proof.
  intros d again upd refused. subst d again upd refused.
  rewrite !behind_getTodo_cases. unfold ObjectId_isValid.
  destruct (decide (todoId = "")) as [->|Hne]; simpl; [done|].
  destruct (castObjectId host todoId) as [oid|]; simpl; [|done].
  destruct (todos s !! oid) as [t|] eqn:Ht.
  - rewrite delete_todo_run. simpl. by rewrite lookup_delete_eq.
  - simpl. by rewrite Ht.
Qed.

(** ** The two collections are handled apart *)

(** X17. The todos router neither reads nor writes the user
    collection: changing the users beforehand changes no answer, and
    the users come out as they went in. This includes a create for an
    identity that has no user record. *)
Theorem todo_routes_ignore_users
    (f : gmap ObjectId UserInfo.t -> gmap ObjectId UserInfo.t)
    (now : string) (fresh uid : ObjectId) (body : TodoRequest.t)
    (todoId : string) (content : option string) (s : Server) :
  let commutes (h : M Response) :=
    respond h (with_user_infos f s)
    = ((respond h s).1, with_user_infos f (respond h s).2) in
  commutes (list_todos uid)
  /\ commutes (create_todo host now fresh body uid)
  /\ commutes (behind_getTodo host todoId (update_todo content) uid)
  /\ commutes (behind_getTodo host todoId delete_todo uid).
Proof.
  simpl. split; [|split; [|split]].
  - by rewrite !list_todos_run.
  - rewrite !create_todo_run. simpl.
    destruct (falsy (TodoRequest.content body)); simpl; [done|].
    destruct (match TodoRequest._id body with
              | Some i => castObjectId host i
              | None => Some fresh
              end) as [id|]; simpl; [|done].
    by destruct (todos s !! id).
  - rewrite !behind_getTodo_cases. simpl.
    destruct (decide (todoId = "")); [done|].
    destruct (castObjectId host todoId) as [oid|]; [|done].
    destruct (todos s !! oid) as [t|]; [|done].
    rewrite !update_todo_run. by destruct (falsy content).
  - rewrite !behind_getTodo_cases. simpl.
    destruct (decide (todoId = "")); [done|].
    destruct (castObjectId host todoId) as [oid|]; [|done].
    by destruct (todos s !! oid) as [t|].
Qed.

(** X18. Search, login and sign-up neither read nor write the todos:
    changing the todos beforehand changes no answer, and the todos
    come out as they went in. *)
Theorem auth_routes_ignore_todos
    (f : gmap ObjectId Todo.t -> gmap ObjectId Todo.t)
    (clock : Z) (now : string) (fresh : ObjectId) (email : option string)
    (lb : LoginRequest.t) (sb : SignUpRequest.t) (s : Server) :
  let commutes (h : M Response) :=
    respond h (with_todos f s)
    = ((respond h s).1, with_todos f (respond h s).2) in
  commutes (search email)
  /\ commutes (login host clock lb)
  /\ commutes (sign_up host now fresh sb).
Proof.
  simpl. split; [|split].
  - rewrite !search_run. simpl. by destruct (regex_test email).
  - rewrite !login_run. simpl.
    destruct (falsy _ || falsy _); simpl; [done|]. by destruct (List.find _ _).
  - rewrite !sign_up_run. simpl.
    destruct (falsy _ || falsy _ || falsy _); simpl; [done|].
    destruct (List.find _ _); simpl; [done|].
    by destruct (user_infos s !! fresh).
Qed.

(** X19. After an account is deleted, listing for that identity is
    answered 404, while any other identity is answered exactly what it
    would have been answered before. *)
Theorem delete_account_then_list (uid uid' : ObjectId) (s : Server) :
  uid' <> uid ->
  let gone := (respond (delete_account uid) s).2 in
  (respond (list_todos uid) gone).1 = reply 404 (JError "Not Found")
  /\ (respond (list_todos uid') gone).1 = (respond (list_todos uid') s).1.
Proof.
  intros Hne gone. subst gone. rewrite delete_account_run, !list_todos_run.
  simpl. split.
  - assert (filter (owned_by uid)
              (filter (fun d => ~ owned_by uid d) (todos s)) = ∅) as ->.
    { apply map_empty. intros i. apply map_lookup_filter_None. right.
      intros t Hit Ho. by apply map_lookup_filter_Some in Hit as [_ ?]. }
    by rewrite map_to_list_empty.
  - assert (filter (owned_by uid')
              (filter (fun d => ~ owned_by uid d) (todos s))
            = filter (owned_by uid') (todos s)) as ->; [|done].
    apply map_eq. intros i. apply option_eq. intros t.
    rewrite !map_lookup_filter_Some. unfold owned_by. simpl.
    split; [by intros [[? ?] ?]|]. intros [Hi Ho].
    split; [split; [done|]|done]. rewrite Ho. by intros [= ->].
Qed.

End MoreRouterProperties.

(** ** The further properties on the concrete platform *)

Lemma world_users_named : users_named (user_infos world).
Proof.
  intros i u Hi. simpl in Hi. apply lookup_singleton_Some in Hi as [_ <-].
  by split.
Qed.

Lemma world_todos_complete : todos_complete (todos world).
Proof.
  intros i t Hi. simpl in Hi.
  apply lookup_insert_Some in Hi as [[_ <-]|[_ Hi]].
  - split; [by eexists|]. by split; eexists.
  - apply lookup_singleton_Some in Hi as [_ <-].
    split; [by eexists|]. by split; eexists.
Qed.

Lemma world_has_no_carol (i : ObjectId) (u : UserInfo.t) :
  user_infos world !! i = Some u ->
  UserInfo.email u <> str (SignUpRequest.email carol_request).
Proof.
  intros Hi. simpl in Hi. by apply lookup_singleton_Some in Hi as [_ <-].
Qed.

Lemma regex_test_single_at_witness :
  regex_test (Some "a@b.com") = true
  /\ occurrences "@" (list_ascii_of_string "a@b.com") = 1
  /\ 6 <= length (list_ascii_of_string "a@b.com").
Proof.
  assert (H : regex_test (Some "a@b.com") = true) by reflexivity.
  split; [exact H|]. exact (regex_test_single_at "a@b.com" H).
Defined.

Lemma sign_up_creates_user_witness :
  falsy (SignUpRequest.email carol_request) = false
  /\ falsy (SignUpRequest.password carol_request) = false
  /\ falsy (SignUpRequest.username carol_request) = false
  /\ user_infos world !! carol = None
  /\ (respond (sign_up demo "2023-07-30 09:00:00.000" carol carol_request)
        world).1
     = reply 201 (JUser (carol, carol_info)).
Proof.
  assert (Hfree : user_infos world !! carol = None) by (vm_compute; reflexivity).
  split; [reflexivity|]. split; [reflexivity|]. split; [reflexivity|].
  split; [exact Hfree|].
  exact (proj1 (sign_up_creates_user demo "2023-07-30 09:00:00.000" carol
                  carol_request world eq_refl eq_refl eq_refl
                  world_has_no_carol Hfree)).
Defined.

Lemma search_agrees_with_sign_up_witness :
  regex_test (Some "carol@example.org") = true
  /\ falsy (Some "p3") = false
  /\ falsy (Some "carol") = false
  /\ user_infos world !! carol = None
  /\ (status (respond (search (Some "carol@example.org")) world).1 = 200 <->
      status (respond (sign_up demo "2023-07-30 09:00:00.000" carol
                         carol_request) world).1 = 201).
Proof.
  assert (Hre : regex_test (Some "carol@example.org") = true) by reflexivity.
  assert (Hfree : user_infos world !! carol = None) by (vm_compute; reflexivity).
  split; [exact Hre|]. split; [reflexivity|]. split; [reflexivity|].
  split; [exact Hfree|].
  exact (proj1 (search_agrees_with_sign_up demo "2023-07-30 09:00:00.000" carol
                  (Some "carol@example.org") (Some "p3") (Some "carol") world
                  Hre eq_refl eq_refl Hfree)).
Defined.

Lemma sign_up_then_login_witness :
  status (respond (sign_up demo "2023-07-30 09:00:00.000" carol carol_request)
            world).1 = 201
  /\ exists tok,
       (respond (login demo 200
                   (LoginRequest.mk (Some "carol@example.org") (Some "p3")))
          (respond (sign_up demo "2023-07-30 09:00:00.000" carol carol_request)
             world).2).1
       = mkResponse 200 (JAccessToken tok) (Some ("user", tok))
       /\ Jwt.sub tok = Some carol
       /\ Jwt.key tok = "s3cret".
Proof.
  assert (H : status (respond (sign_up demo "2023-07-30 09:00:00.000" carol
                                 carol_request) world).1 = 201)
    by (vm_compute; reflexivity).
  split; [exact H|].
  exact (sign_up_then_login demo "2023-07-30 09:00:00.000" carol 200
           carol_request world H).
Defined.

Lemma delete_account_then_login_witness :
  unique_emails (user_infos world)
  /\ user_infos world !! alice = Some alice_info
  /\ (respond (login demo 200 (LoginRequest.mk (Some "a@b.com") (Some "p1")))
        (respond (delete_account alice) world).2).1
     = reply 401 (JError "Invalid credentials").
Proof.
  assert (H : user_infos world !! alice = Some alice_info)
    by (vm_compute; reflexivity).
  split; [exact world_emails_unique|]. split; [exact H|].
  exact (proj1 (delete_account_then_login demo 200 alice alice_info
                  (LoginRequest.mk (Some "a@b.com") (Some "p1")) world
                  world_emails_unique H eq_refl)).
Defined.

Lemma auth_routes_keep_emails_unique_witness :
  unique_emails (user_infos world)
  /\ unique_emails
       (user_infos (respond (sign_up demo "2023-07-30 09:00:00.000" carol
                               carol_request) world).2).
Proof.
  split; [exact world_emails_unique|].
  exact (proj1 (auth_routes_keep_emails_unique demo 200
                  "2023-07-30 09:00:00.000" carol alice carol_request
                  (LoginRequest.mk (Some "a@b.com") (Some "p1"))
                  (Some "a@b.com") world world_emails_unique)).
Defined.

Lemma auth_routes_keep_users_named_witness :
  users_named (user_infos world)
  /\ users_named
       (user_infos (respond (sign_up demo "2023-07-30 09:00:00.000" carol
                               carol_request) world).2).
Proof.
  split; [exact world_users_named|].
  exact (proj1 (auth_routes_keep_users_named demo 200
                  "2023-07-30 09:00:00.000" carol alice carol_request
                  (LoginRequest.mk (Some "a@b.com") (Some "p1"))
                  (Some "a@b.com") world world_users_named)).
Defined.

Lemma todo_routes_keep_todos_complete_witness :
  todos_complete (todos world)
  /\ todos_complete
       (todos (respond (create_todo demo "2023-07-30 09:00:00.000" bread
                          bread_request alice) world).2).
Proof.
  split; [exact world_todos_complete|].
  exact (proj1 (todo_routes_keep_todos_complete demo "2023-07-30 09:00:00.000"
                  bread alice bread_request (hex milk) (Some "buy oat milk")
                  world world_todos_complete)).
Defined.

Lemma create_then_list_witness :
  status (respond (create_todo demo "2023-07-30 09:00:00.000" bread
                     bread_request alice) world).1 = 201
  /\ exists id docs,
       (respond (create_todo demo "2023-07-30 09:00:00.000" bread
                   bread_request alice) world).1
       = reply 201 (JTodo (id, bread_todo))
       /\ (respond (list_todos alice)
             (respond (create_todo demo "2023-07-30 09:00:00.000" bread
                         bread_request alice) world).2).1
          = reply 200 (JTodos docs)
       /\ (id, bread_todo) ∈ docs.
Proof.
  assert (H : status (respond (create_todo demo "2023-07-30 09:00:00.000" bread
                                 bread_request alice) world).1 = 201)
    by (vm_compute; reflexivity).
  split; [exact H|].
  destruct (create_then_list demo "2023-07-30 09:00:00.000" bread alice
              bread_request world H) as (id & docs & H1 & H2 & H3 & _).
  exists id, docs. split; [exact H1|]. split; [exact H2|exact H3].
Defined.

Lemma create_then_delete_restores_witness :
  (respond (create_todo demo "2023-07-30 09:00:00.000" bread bread_request alice)
     world).1 = reply 201 (JTodo (bread, bread_todo))
  /\ hex bread <> ""
  /\ castObjectId demo (hex bread) = Some bread
  /\ todos (respond (behind_getTodo demo (hex bread) delete_todo bob)
              (respond (create_todo demo "2023-07-30 09:00:00.000" bread
                          bread_request alice) world).2).2
     = todos world.
Proof.
  assert (H : (respond (create_todo demo "2023-07-30 09:00:00.000" bread
                          bread_request alice) world).1
              = reply 201 (JTodo (bread, bread_todo)))
    by (vm_compute; reflexivity).
  assert (Hne : hex bread <> "") by discriminate.
  assert (Hc : castObjectId demo (hex bread) = Some bread)
    by (vm_compute; reflexivity).
  split; [exact H|]. split; [exact Hne|]. split; [exact Hc|].
  exact (proj1 (proj2 (create_then_delete_restores demo
                         "2023-07-30 09:00:00.000" bread alice bob bread
                         bread_todo bread_request (hex bread) world H Hne Hc))).
Defined.

Lemma update_last_write_wins_witness :
  hex milk <> ""
  /\ castObjectId demo (hex milk) = Some milk
  /\ falsy (Some "buy oat milk") = false
  /\ todos (respond (behind_getTodo demo (hex milk)
                       (update_todo (Some "buy oat milk")) bob)
              (respond (behind_getTodo demo (hex milk)
                          (update_todo (Some "buy soy milk")) alice) world).2).2
     = todos (respond (behind_getTodo demo (hex milk)
                         (update_todo (Some "buy oat milk")) bob) world).2.
Proof.
  assert (Hne : hex milk <> "") by discriminate.
  assert (Hc : castObjectId demo (hex milk) = Some milk)
    by (vm_compute; reflexivity).
  split; [exact Hne|]. split; [exact Hc|]. split; [reflexivity|].
  exact (proj2 (update_last_write_wins demo (hex milk) alice bob milk
                  (Some "buy soy milk") (Some "buy oat milk") world Hne Hc
                  eq_refl)).
Defined.


Lemma delete_account_then_list_witness :
  bob <> alice
  /\ (respond (list_todos alice) (respond (delete_account alice) world).2).1
     = reply 404 (JError "Not Found")
  /\ (respond (list_todos bob) (respond (delete_account alice) world).2).1
     = (respond (list_todos bob) world).1.
Proof.
  assert (H : bob <> alice) by discriminate.
  split; [exact H|]. exact (delete_account_then_list alice bob world H).
Defined.
